(** * Shopify-to-ERP middleware: order mapping, SOAP envelope, delivery loop

    A shallow embedding of [src/main.go]:
    - [transformOrder]      (OrderMapper),
    - [xmlEscape] and [createSOAPEnvelope] (EnvelopeEncoder),
    - [sendToERP]           (DeliveryCoordinator / retry loop),
    - [generateRequestID] and [handleWebhook] (the caller of the pipeline).

    Go strings are byte sequences; they are modelled by [string] (a list
    of 8-bit [ascii]).  Go's [int]/[int64] values are modelled by [Z]; the
    code does no arithmetic on them except for the sleep duration, whose
    64-bit wrap-around is written out.  *)

From Stdlib Require Import ZArith Ascii String DecimalString DecimalZ.
From stdpp Require Import base tactics option list strings gmap.

Local Open Scope string_scope.
Local Open Scope list_scope.
Local Open Scope Z_scope.

(** ** Constants of [main.go] *)

Definition MaxRetries : Z := 3.

(** [time.Second] in nanoseconds; [time.Duration] is an [int64]. *)
Definition Second : Z := 1000000000.
Definition RetryDelay : Z := 2 * Second.

(** The double-quote character and line feed, used inside literals. *)
Definition dq : string := String "034"%char "".
Definition nl : string := String "010"%char "".

Definition DefaultERPEndpoint : string := "https://httpbin.org/post".
Definition SOAPAction : string := "http://tempuri.org/CreateOrder".

(** ** Data model *)

Record Customer := mkCustomer {
  Customer_ID : Z;
  Customer_Email : string;
  Customer_FirstName : string;
  Customer_LastName : string;
  Customer_Phone : string
}.

Record LineItem := mkLineItem {
  LineItem_ID : Z;
  LineItem_ProductID : Z;
  LineItem_VariantID : Z;
  LineItem_Title : string;
  LineItem_Name : string;
  LineItem_Quantity : Z;
  LineItem_Price : string;
  LineItem_SKU : string;
  LineItem_VariantTitle : string;
  LineItem_FulfillmentService : string
}.

Record Address := mkAddress {
  Address_FirstName : string;
  Address_LastName : string;
  Address_Company : string;
  Address_Address1 : string;
  Address_Address2 : string;
  Address_City : string;
  Address_Province : string;
  Address_Country : string;
  Address_Zip : string;
  Address_Phone : string;
  Address_ProvinceCode : string;
  Address_CountryCode : string
}.

Record ShopifyOrder := mkShopifyOrder {
  Shopify_ID : Z;
  Shopify_OrderNumber : Z;
  Shopify_Email : string;
  Shopify_CreatedAt : string;
  Shopify_UpdatedAt : string;
  Shopify_TotalPrice : string;
  Shopify_SubtotalPrice : string;
  Shopify_TotalTax : string;
  Shopify_Currency : string;
  Shopify_FinancialStatus : string;
  Shopify_FulfillmentStatus : string;
  Shopify_Customer : Customer;
  Shopify_LineItems : list LineItem;
  Shopify_ShippingAddress : Address;
  Shopify_BillingAddress : Address
}.

Record ERPItem := mkERPItem {
  SKU : string;
  ProductName : string;
  Quantity : Z;
  UnitPrice : string;
  VariantTitle : string
}.

Record ERPAddress := mkERPAddress {
  Name : string;
  Company : string;
  AddressLine1 : string;
  AddressLine2 : string;
  City : string;
  State : string;
  PostalCode : string;
  Country : string;
  Phone : string
}.

Record ERPOrder := mkERPOrder {
  OrderID : string;
  OrderNumber : string;
  CustomerEmail : string;
  CustomerName : string;
  CustomerPhone : string;
  OrderDate : string;
  TotalAmount : string;
  SubtotalAmount : string;
  TaxAmount : string;
  Currency : string;
  PaymentStatus : string;
  FulfillmentStatus : string;
  Items : list ERPItem;
  ShippingAddress : ERPAddress;
  BillingAddress : ERPAddress;
  Timestamp : string
}.

(** Zero values of the Go types (what [json.Unmarshal] leaves in a field
    that is absent from the payload). *)
Definition zeroCustomer : Customer := mkCustomer 0 "" "" "" "".
Definition zeroAddress : Address := mkAddress "" "" "" "" "" "" "" "" "" "" "" "".
Definition zeroShopifyOrder : ShopifyOrder :=
  mkShopifyOrder 0 0 "" "" "" "" "" "" "" "" "" zeroCustomer [] zeroAddress zeroAddress.
Definition zeroERPItem : ERPItem := mkERPItem "" "" 0 "" "".

(** ** Formatting: the two [fmt] verbs the program uses *)

(** [fmt.Sprintf("%d", n)]: decimal digits, a leading minus sign for
    negative numbers. *)
Definition Sprintf_d (n : Z) : string := NilZero.string_of_int (Z.to_int n).

(** [fmt.Sprintf("%s %s", a, b)]. *)
Definition Sprintf_s_s (a b : string) : string := a +:+ " " +:+ b.

(** ** Escaping *)

(** [html.EscapeString] of the Go standard library replaces exactly five
    bytes and copies every other byte. *)
Definition escapeByte (c : ascii) : string :=
  if Ascii.eqb c "&" then "&amp;"
  else if Ascii.eqb c "'" then "&#39;"
  else if Ascii.eqb c "<" then "&lt;"
  else if Ascii.eqb c ">" then "&gt;"
  else if Ascii.eqb c "034" then "&#34;"
  else String c "".

Fixpoint html_EscapeString (s : string) : string :=
  match s with
  | EmptyString => EmptyString
  | String c rest => escapeByte c +:+ html_EscapeString rest
  end.

Definition xmlEscape (s : string) : string := html_EscapeString s.

(** ** OrderMapper: [transformOrder] *)

(** [items[i] = v].  Go panics when [i] is out of range; the panic is the
    [None] result. *)
Definition set_index {A : Type} (items : list A) (i : nat) (v : A) : option (list A) :=
  if decide (i < length items)%nat then Some (<[i:=v]> items) else None.

(** The [ERPItem] literal built in the body of the line-item loop. *)
Definition transformItem (item : LineItem) : ERPItem :=
  {| SKU := LineItem_SKU item;
     ProductName := LineItem_Title item;
     Quantity := LineItem_Quantity item;
     UnitPrice := LineItem_Price item;
     VariantTitle := LineItem_VariantTitle item |}.

(** [for i, item := range shopifyOrder.LineItems { items[i] = ... }],
    started at index [i] with [rest] still to visit. *)
Fixpoint transformItems_from (i : nat) (rest : list LineItem) (items : list ERPItem)
  : option (list ERPItem) :=
  match rest with
  | [] => Some items
  | item :: rest' =>
      items' ← set_index items i (transformItem item);
      transformItems_from (S i) rest' items'
  end.

(** [items := make([]ERPItem, len(LineItems))] followed by the loop. *)
Definition transformItems (lineItems : list LineItem) : option (list ERPItem) :=
  transformItems_from 0 lineItems (replicate (length lineItems) zeroERPItem).

(** [transformOrder].  [now] is the clock reading
    [time.Now().UTC().Format(time.RFC3339)] taken when the result is
    built.  [None] stands for a run-time panic. *)
Definition transformOrder (shopifyOrder : ShopifyOrder) (now : string) : option ERPOrder :=
  items ← transformItems (Shopify_LineItems shopifyOrder);
  let shippingAddr :=
    {| Name := Sprintf_s_s (Address_FirstName (Shopify_ShippingAddress shopifyOrder))
                           (Address_LastName (Shopify_ShippingAddress shopifyOrder));
       Company := Address_Company (Shopify_ShippingAddress shopifyOrder);
       AddressLine1 := Address_Address1 (Shopify_ShippingAddress shopifyOrder);
       AddressLine2 := Address_Address2 (Shopify_ShippingAddress shopifyOrder);
       City := Address_City (Shopify_ShippingAddress shopifyOrder);
       State := Address_Province (Shopify_ShippingAddress shopifyOrder);
       PostalCode := Address_Zip (Shopify_ShippingAddress shopifyOrder);
       Country := Address_Country (Shopify_ShippingAddress shopifyOrder);
       Phone := Address_Phone (Shopify_ShippingAddress shopifyOrder) |} in
  let billingAddr :=
    {| Name := Sprintf_s_s (Address_FirstName (Shopify_BillingAddress shopifyOrder))
                           (Address_LastName (Shopify_BillingAddress shopifyOrder));
       Company := Address_Company (Shopify_BillingAddress shopifyOrder);
       AddressLine1 := Address_Address1 (Shopify_BillingAddress shopifyOrder);
       AddressLine2 := Address_Address2 (Shopify_BillingAddress shopifyOrder);
       City := Address_City (Shopify_BillingAddress shopifyOrder);
       State := Address_Province (Shopify_BillingAddress shopifyOrder);
       PostalCode := Address_Zip (Shopify_BillingAddress shopifyOrder);
       Country := Address_Country (Shopify_BillingAddress shopifyOrder);
       Phone := Address_Phone (Shopify_BillingAddress shopifyOrder) |} in
  Some
    {| OrderID := Sprintf_d (Shopify_ID shopifyOrder);
       OrderNumber := Sprintf_d (Shopify_OrderNumber shopifyOrder);
       CustomerEmail := Shopify_Email shopifyOrder;
       CustomerName :=
         Sprintf_s_s (Customer_FirstName (Shopify_Customer shopifyOrder))
                     (Customer_LastName (Shopify_Customer shopifyOrder));
       CustomerPhone := Customer_Phone (Shopify_Customer shopifyOrder);
       OrderDate := Shopify_CreatedAt shopifyOrder;
       TotalAmount := Shopify_TotalPrice shopifyOrder;
       SubtotalAmount := Shopify_SubtotalPrice shopifyOrder;
       TaxAmount := Shopify_TotalTax shopifyOrder;
       Currency := Shopify_Currency shopifyOrder;
       PaymentStatus := Shopify_FinancialStatus shopifyOrder;
       FulfillmentStatus := Shopify_FulfillmentStatus shopifyOrder;
       Items := items;
       ShippingAddress := shippingAddr;
       BillingAddress := billingAddr;
       Timestamp := now |}.

(** ** EnvelopeEncoder: [createSOAPEnvelope] *)

(** The initial value of [soapEnvelope]: everything up to and including
    the opening [<tem:Items>] tag. *)
Definition envelopeHead (erpOrder : ERPOrder) : string :=
  "<?xml version=" +:+ dq +:+ "1.0" +:+ dq +:+ " encoding=" +:+ dq +:+ "utf-8" +:+ dq +:+ "?>
<soap:Envelope xmlns:soap=" +:+ dq +:+ "http://schemas.xmlsoap.org/soap/envelope/" +:+ dq +:+ " " +:+ nl +:+
  "               xmlns:tem=" +:+ dq +:+ "http://tempuri.org/" +:+ dq +:+ ">
  <soap:Header/>
  <soap:Body>
    <tem:CreateOrder>
      <tem:order>
        <tem:OrderID>" +:+ xmlEscape (OrderID erpOrder) +:+ "</tem:OrderID>
        <tem:OrderNumber>" +:+ xmlEscape (OrderNumber erpOrder) +:+ "</tem:OrderNumber>
        <tem:CustomerEmail>" +:+ xmlEscape (CustomerEmail erpOrder) +:+ "</tem:CustomerEmail>
        <tem:CustomerName>" +:+ xmlEscape (CustomerName erpOrder) +:+ "</tem:CustomerName>
        <tem:CustomerPhone>" +:+ xmlEscape (CustomerPhone erpOrder) +:+ "</tem:CustomerPhone>
        <tem:OrderDate>" +:+ xmlEscape (OrderDate erpOrder) +:+ "</tem:OrderDate>
        <tem:TotalAmount>" +:+ xmlEscape (TotalAmount erpOrder) +:+ "</tem:TotalAmount>
        <tem:SubtotalAmount>" +:+ xmlEscape (SubtotalAmount erpOrder) +:+ "</tem:SubtotalAmount>
        <tem:TaxAmount>" +:+ xmlEscape (TaxAmount erpOrder) +:+ "</tem:TaxAmount>
        <tem:Currency>" +:+ xmlEscape (Currency erpOrder) +:+ "</tem:Currency>
        <tem:PaymentStatus>" +:+ xmlEscape (PaymentStatus erpOrder) +:+ "</tem:PaymentStatus>
        <tem:FulfillmentStatus>" +:+ xmlEscape (FulfillmentStatus erpOrder) +:+ "</tem:FulfillmentStatus>
        <tem:ShippingAddress>
          <tem:Name>" +:+ xmlEscape (Name (ShippingAddress erpOrder)) +:+ "</tem:Name>
          <tem:Company>" +:+ xmlEscape (Company (ShippingAddress erpOrder)) +:+ "</tem:Company>
          <tem:AddressLine1>" +:+ xmlEscape (AddressLine1 (ShippingAddress erpOrder)) +:+ "</tem:AddressLine1>
          <tem:AddressLine2>" +:+ xmlEscape (AddressLine2 (ShippingAddress erpOrder)) +:+ "</tem:AddressLine2>
          <tem:City>" +:+ xmlEscape (City (ShippingAddress erpOrder)) +:+ "</tem:City>
          <tem:State>" +:+ xmlEscape (State (ShippingAddress erpOrder)) +:+ "</tem:State>
          <tem:PostalCode>" +:+ xmlEscape (PostalCode (ShippingAddress erpOrder)) +:+ "</tem:PostalCode>
          <tem:Country>" +:+ xmlEscape (Country (ShippingAddress erpOrder)) +:+ "</tem:Country>
          <tem:Phone>" +:+ xmlEscape (Phone (ShippingAddress erpOrder)) +:+ "</tem:Phone>
        </tem:ShippingAddress>
        <tem:BillingAddress>
          <tem:Name>" +:+ xmlEscape (Name (BillingAddress erpOrder)) +:+ "</tem:Name>
          <tem:Company>" +:+ xmlEscape (Company (BillingAddress erpOrder)) +:+ "</tem:Company>
          <tem:AddressLine1>" +:+ xmlEscape (AddressLine1 (BillingAddress erpOrder)) +:+ "</tem:AddressLine1>
          <tem:AddressLine2>" +:+ xmlEscape (AddressLine2 (BillingAddress erpOrder)) +:+ "</tem:AddressLine2>
          <tem:City>" +:+ xmlEscape (City (BillingAddress erpOrder)) +:+ "</tem:City>
          <tem:State>" +:+ xmlEscape (State (BillingAddress erpOrder)) +:+ "</tem:State>
          <tem:PostalCode>" +:+ xmlEscape (PostalCode (BillingAddress erpOrder)) +:+ "</tem:PostalCode>
          <tem:Country>" +:+ xmlEscape (Country (BillingAddress erpOrder)) +:+ "</tem:Country>
          <tem:Phone>" +:+ xmlEscape (Phone (BillingAddress erpOrder)) +:+ "</tem:Phone>
        </tem:BillingAddress>
        <tem:Items>".

(** The text appended to [soapEnvelope] by one iteration of the item loop. *)
Definition itemBlock (item : ERPItem) : string :=
  "
          <tem:Item>
            <tem:SKU>" +:+ xmlEscape (SKU item) +:+ "</tem:SKU>
            <tem:ProductName>" +:+ xmlEscape (ProductName item) +:+ "</tem:ProductName>
            <tem:Quantity>" +:+ Sprintf_d (Quantity item) +:+ "</tem:Quantity>
            <tem:UnitPrice>" +:+ xmlEscape (UnitPrice item) +:+ "</tem:UnitPrice>
            <tem:VariantTitle>" +:+ xmlEscape (VariantTitle item) +:+ "</tem:VariantTitle>
          </tem:Item>".

(** The text appended after the loop. *)
Definition envelopeTail (erpOrder : ERPOrder) : string :=
  "
        </tem:Items>
        <tem:Timestamp>" +:+ xmlEscape (Timestamp erpOrder) +:+ "</tem:Timestamp>
      </tem:order>
    </tem:CreateOrder>
  </soap:Body>
</soap:Envelope>".

(** [createSOAPEnvelope]: the three assignments to [soapEnvelope]; the
    loop is a left fold of [+=] over [erpOrder.Items]. *)
Definition createSOAPEnvelope (erpOrder : ERPOrder) : string :=
  let soapEnvelope := envelopeHead erpOrder in
  let soapEnvelope :=
    fold_left (fun acc item => acc +:+ itemBlock item) (Items erpOrder) soapEnvelope in
  soapEnvelope +:+ envelopeTail erpOrder.

(** ** DeliveryCoordinator: [sendToERP] *)

(** A Go [error] value: an opaque error with its message, or an error
    built by [fmt.Errorf] with the [%w] verb, which keeps the wrapped
    error next to the formatted message. *)
Inductive error : Type :=
| ErrNew (msg : string)
| ErrWrap (msg : string) (cause : error).

(** [err.Error()]. *)
Definition Error (e : error) : string :=
  match e with
  | ErrNew msg => msg
  | ErrWrap msg _ => msg
  end.

(** [errors.Unwrap(err)]. *)
Definition Unwrap (e : error) : option error :=
  match e with
  | ErrNew _ => None
  | ErrWrap _ cause => Some cause
  end.

(** [fmt.Errorf("failed to create request: %w", err)]. *)
Definition Errorf_create_request (err : error) : error :=
  ErrWrap ("failed to create request: " +:+ Error err) err.

(** [fmt.Errorf("failed to send request after %d attempts: %w", n, err)]. *)
Definition Errorf_send_request (n : Z) (err : error) : error :=
  ErrWrap ("failed to send request after " +:+ Sprintf_d n +:+ " attempts: " +:+ Error err) err.

(** [fmt.Errorf("failed to send order to ERP after %d attempts", n)]. *)
Definition Errorf_send_order (n : Z) : error :=
  ErrNew ("failed to send order to ERP after " +:+ Sprintf_d n +:+ " attempts").

(** [http.Header], a [map[string][]string]: the values recorded under each
    key. *)
Definition Header : Type := gmap string (list string).

Record Request := mkRequest {
  Method : string;
  URL : string;
  ReqHeader : Header;
  ReqBody : string
}.

(** [validHeaderFieldByte] of [net/textproto]: the bytes of an HTTP token,
    that is letters, digits and the marks listed. *)
Definition validHeaderFieldByte (c : ascii) : bool :=
  let n := N_of_ascii c in
  ((65 <=? n) && (n <=? 90))%N || ((97 <=? n) && (n <=? 122))%N
  || ((48 <=? n) && (n <=? 57))%N
  || existsb (Ascii.eqb c)
       ["!"; "#"; "$"; "%"; "&"; "'"; "*"; "+"; "-"; "."; "^"; "_"; "`"; "|"; "~"]%char.

(** The rewriting loop of [canonicalMIMEHeaderKey]: the first letter and
    every letter after a hyphen in upper case, every other letter in lower
    case. *)
Fixpoint canonicalBytes (upper : bool) (s : string) : string :=
  match s with
  | EmptyString => EmptyString
  | String c rest =>
      let n := N_of_ascii c in
      let c' :=
        if upper && ((97 <=? n) && (n <=? 122))%N then ascii_of_N (n - 32)
        else if negb upper && ((65 <=? n) && (n <=? 90))%N then ascii_of_N (n + 32)
        else c in
      String c' (canonicalBytes (Ascii.eqb c' "-") rest)
  end.

(** [textproto.CanonicalMIMEHeaderKey]: a key with a byte that is not a
    token byte is left as it is. *)
Definition CanonicalMIMEHeaderKey (s : string) : string :=
  if forallb validHeaderFieldByte (list_ascii_of_string s)
  then canonicalBytes true s else s.

(** [req.Header.Set(key, value)]: the values under the canonical form of
    [key] are replaced by the single [value]. *)
Definition Header_Set (req : Request) (key value : string) : Request :=
  {| Method := Method req; URL := URL req;
     ReqHeader := <[CanonicalMIMEHeaderKey key := [value]]> (ReqHeader req);
     ReqBody := ReqBody req |}.

(** What [s.httpClient.Do(req)] hands back: an error (no response), or a
    response with its status code, header and the body as read by
    [io.ReadAll] (whose own error the code discards). *)
Inductive DoResult : Type :=
| DoError (err : error)
| DoResponse (StatusCode : Z) (RespHeader : Header) (Body : string).

(** The surroundings of one call of [sendToERP]: the process environment,
    whether [http.NewRequest] accepts a URL, and the outcome of the k-th
    round trip of the call (k = 1, 2, ...; the loop makes at most one
    round trip per iteration, so k is the attempt number). *)
Record World := mkWorld {
  Getenv : string -> string;
  NewRequest_error : string -> option error;
  Do : Z -> DoResult
}.

(** [http.NewRequest(method, url, body)]. *)
Definition NewRequest (w : World) (method url body : string) : error + Request :=
  match NewRequest_error w url with
  | Some err => inl err
  | None => inr {| Method := method; URL := url; ReqHeader := ∅; ReqBody := body |}
  end.

(** Observable effects, in the order they happen.  The [log.Printf]
    console lines carry no information beyond these and are left out. *)
Inductive Event : Type :=
| LogOutgoingSOAP (requestID url : string) (headers : Header) (soapBody orderID : string)
| RoundTrip (attempt : Z) (req : Request)
| LogSOAPResponse (requestID : string) (statusCode : Z) (headers : option Header)
                  (responseBody orderID : string) (err : option error)
| Sleep (d : Z).

(** 64-bit two's complement wrap-around of [int64] arithmetic. *)
Definition wrap64 (z : Z) : Z := (z + 2 ^ 63) mod 2 ^ 64 - 2 ^ 63.

(** [RetryDelay * time.Duration(attempt)]. *)
Definition backoff (attempt : Z) : Z := wrap64 (RetryDelay * attempt).

(** [resp.StatusCode >= 200 && resp.StatusCode < 300]. *)
Definition is2xx (statusCode : Z) : bool := (statusCode >=? 200) && (statusCode <? 300).

(** The [for attempt := 1; attempt <= MaxRetries; attempt++] loop, entered
    with the given value of [attempt] and the events [tr] emitted so far.
    The result is the returned [error] ([None] is Go's [nil]) and the
    events.  [fuel] bounds the number of loop tests; the outer [None] is
    only returned when it runs out. *)
Fixpoint sendLoop (w : World) (erpEndpoint soapAction soapXML requestID orderID : string)
    (fuel : nat) (attempt : Z) (tr : list Event) : option (option error * list Event) :=
  match fuel with
  | O => None
  | S fuel' =>
    if attempt <=? MaxRetries then
      match NewRequest w "POST" erpEndpoint soapXML with
      | inl err => Some (Some (Errorf_create_request err), tr)
      | inr req =>
        let req := Header_Set req "Content-Type" "text/xml; charset=utf-8" in
        let req := Header_Set req "SOAPAction" (dq +:+ soapAction +:+ dq) in
        let req := Header_Set req "User-Agent" "Shopify-ERP-Middleware/1.0" in
        let tr := tr ++ [LogOutgoingSOAP requestID erpEndpoint (ReqHeader req)
                                         soapXML orderID] in
        let tr := tr ++ [RoundTrip attempt req] in
        match Do w attempt with
        | DoError err =>
          let tr := tr ++ [LogSOAPResponse requestID 0 None "" orderID (Some err)] in
          if attempt <? MaxRetries then
            sendLoop w erpEndpoint soapAction soapXML requestID orderID
                     fuel' (attempt + 1) (tr ++ [Sleep (backoff attempt)])
          else Some (Some (Errorf_send_request MaxRetries err), tr)
        | DoResponse statusCode header responseStr =>
          let tr := tr ++ [LogSOAPResponse requestID statusCode (Some header)
                                           responseStr orderID None] in
          if is2xx statusCode then Some (None, tr)
          else
            let tr := if attempt <? MaxRetries
                      then tr ++ [Sleep (backoff attempt)] else tr in
            sendLoop w erpEndpoint soapAction soapXML requestID orderID
                     fuel' (attempt + 1) tr
        end
      end
    else Some (Some (Errorf_send_order MaxRetries), tr)
  end.

(** [os.Getenv(key)] with the fallback the code applies to an empty value. *)
Definition getenv_default (w : World) (key default : string) : string :=
  if String.eqb (Getenv w key) "" then default else Getenv w key.

(** [sendToERP].  The loop tests its condition at most [MaxRetries + 1]
    times, which is the fuel given. *)
Definition sendToERP (w : World) (erpOrder : ERPOrder) (requestID : string)
  : option (option error * list Event) :=
  let erpEndpoint := getenv_default w "ERP_ENDPOINT" DefaultERPEndpoint in
  let soapAction := getenv_default w "SOAP_ACTION" SOAPAction in
  let soapXML := createSOAPEnvelope erpOrder in
  sendLoop w erpEndpoint soapAction soapXML requestID (OrderID erpOrder)
           (S (Z.to_nat MaxRetries)) 1 [].

(** *** Reading a trace *)

(** The attempt numbers of the round trips of a trace, and their count
    (the number of delivery attempts made). *)
Definition roundTrips (tr : list Event) : list Z :=
  omap (fun ev => match ev with RoundTrip n _ => Some n | _ => None end) tr.

Definition attemptsMade (tr : list Event) : nat := length (roundTrips tr).

(** The delivery schedule of a trace: round trips and sleeps only. *)
Inductive Step : Type :=
| Attempt (n : Z)
| Pause (d : Z).

Definition stepOf (ev : Event) : option Step :=
  match ev with
  | RoundTrip n _ => Some (Attempt n)
  | Sleep d => Some (Pause d)
  | _ => None
  end.

Definition schedule (tr : list Event) : list Step := omap stepOf tr.

(** ** The reading side of the wire format *)

(** Modelled from the spec: the un-escaping done by "a conforming parser of
    the outbound wire format" (section 8).  The envelope declares itself
    XML 1.0 in UTF-8; its parser belongs to the remote endpoint and is not
    in the repository.  What XML 1.0 prescribes for character data is
    modelled in the order a parser applies it:
    - the bytes are well-formed UTF-8 and every code point is a Char, that
      is #x9, #xA, #xD, #x20-#xD7FF, #xE000-#xFFFD or #x10000-#x10FFFF
      (XML 1.0, 2.2); anything else is rejected;
    - line ends are normalised: #xD #xA and a #xD on its own become #xA
      (2.11);
    - references are expanded: the five predefined entities, and decimal
      and hexadecimal character references to a Char (4.1, 4.6); a bare
      ampersand, an undeclared entity, an unterminated reference, a ['<']
      and the sequence "]]>" in character data are rejected (2.4). *)

Definition cr : ascii := "013"%char.
Definition lf : ascii := "010"%char.

(** Modelled from the spec: where a UTF-8 decoder stands between two bytes.
    [AtChar] is the position between two characters; the other states
    name the lead bytes read and the continuation bytes still to come. *)
Inductive utf8State : Type :=
| AtChar
| Tail1
| Tail2
| Tail3
| AfterE0
| AfterED
| AfterEF
| AfterEFBF
| AfterF0
| AfterF4.

Definition between (lo hi n : N) : bool := ((lo <=? n) && (n <=? hi))%N.

(** Modelled from the spec: one byte of UTF-8 (RFC 3629: no overlong form,
    no surrogate, nothing above #x10FFFF), restricted to the code points of
    Char: of the bytes below #x20 only #x9, #xA and #xD, and neither #xFFFE
    nor #xFFFF (the bytes EF BF BE and EF BF BF). *)
Definition utf8Step (st : utf8State) (c : ascii) : option utf8State :=
  let n := N_of_ascii c in
  match st with
  | AtChar =>
      if (n <? 128)%N then
        if (n =? 9)%N || (n =? 10)%N || (n =? 13)%N || (32 <=? n)%N
        then Some AtChar else None
      else if between 194 223 n then Some Tail1
      else if (n =? 224)%N then Some AfterE0
      else if between 225 236 n then Some Tail2
      else if (n =? 237)%N then Some AfterED
      else if (n =? 238)%N then Some Tail2
      else if (n =? 239)%N then Some AfterEF
      else if (n =? 240)%N then Some AfterF0
      else if between 241 243 n then Some Tail3
      else if (n =? 244)%N then Some AfterF4
      else None
  | Tail1 => if between 128 191 n then Some AtChar else None
  | Tail2 => if between 128 191 n then Some Tail1 else None
  | Tail3 => if between 128 191 n then Some Tail2 else None
  | AfterE0 => if between 160 191 n then Some Tail1 else None
  | AfterED => if between 128 159 n then Some Tail1 else None
  | AfterEF =>
      if (n =? 191)%N then Some AfterEFBF
      else if between 128 190 n then Some Tail1 else None
  | AfterEFBF => if between 128 189 n then Some AtChar else None
  | AfterF0 => if between 144 191 n then Some Tail2 else None
  | AfterF4 => if between 128 143 n then Some Tail2 else None
  end.

Fixpoint utf8Run (st : utf8State) (s : string) : option utf8State :=
  match s with
  | EmptyString => Some st
  | String c rest => st' ← utf8Step st c; utf8Run st' rest
  end.

(** Modelled from the spec: the text is a sequence of whole characters, all
    of them Chars. *)
Definition xmlChars (s : string) : bool :=
  match utf8Run AtChar s with
  | Some AtChar => true
  | _ => false
  end.

(** Modelled from the spec: line-end normalisation.  [afterCR] tells that
    the byte before was a #xD, already turned into #xA, so that a #xA
    which follows it is dropped. *)
Fixpoint normalizeEOL (afterCR : bool) (s : string) : string :=
  match s with
  | EmptyString => EmptyString
  | String c rest =>
      if Ascii.eqb c cr then String lf (normalizeEOL true rest)
      else if Ascii.eqb c lf && afterCR then normalizeEOL false rest
      else String c (normalizeEOL false rest)
  end.

(** Modelled from the spec: the digits of a character reference. *)
Fixpoint decimalDigits (acc : Z) (s : string) : option Z :=
  match s with
  | EmptyString => Some acc
  | String c rest =>
      let d := Z.of_N (N_of_ascii c) - 48 in
      if (0 <=? d) && (d <=? 9) then decimalDigits (10 * acc + d) rest else None
  end.

Definition hexValue (c : ascii) : option Z :=
  let n := Z.of_N (N_of_ascii c) in
  if (48 <=? n) && (n <=? 57) then Some (n - 48)
  else if (97 <=? n) && (n <=? 102) then Some (n - 87)
  else if (65 <=? n) && (n <=? 70) then Some (n - 55)
  else None.

Fixpoint hexDigits (acc : Z) (s : string) : option Z :=
  match s with
  | EmptyString => Some acc
  | String c rest => d ← hexValue c; hexDigits (16 * acc + d) rest
  end.

(** Modelled from the spec: the code points of Char, and the UTF-8 bytes of
    a code point. *)
Definition isXmlChar (n : Z) : bool :=
  (n =? 9) || (n =? 10) || (n =? 13)
  || ((32 <=? n) && (n <=? 55295))
  || ((57344 <=? n) && (n <=? 65533))
  || ((65536 <=? n) && (n <=? 1114111)).

Definition byteOf (n : Z) : ascii := ascii_of_N (Z.to_N n).

Definition utf8Encode (n : Z) : string :=
  if n <? 128 then String (byteOf n) ""
  else if n <? 2048 then
    String (byteOf (192 + n / 64)) (String (byteOf (128 + n mod 64)) "")
  else if n <? 65536 then
    String (byteOf (224 + n / 4096))
      (String (byteOf (128 + (n / 64) mod 64)) (String (byteOf (128 + n mod 64)) ""))
  else
    String (byteOf (240 + n / 262144))
      (String (byteOf (128 + (n / 4096) mod 64))
         (String (byteOf (128 + (n / 64) mod 64)) (String (byteOf (128 + n mod 64)) ""))).

(** Modelled from the spec: what stands for the reference [&name;].  With
    no declarations in the document, only the five predefined entities
    have a name; [#] and digits is a decimal, [#x] and digits a hexadecimal
    character reference, either of which must denote a Char. *)
Definition expandReference (name : string) : option string :=
  if String.eqb name "amp" then Some "&"
  else if String.eqb name "lt" then Some "<"
  else if String.eqb name "gt" then Some ">"
  else if String.eqb name "quot" then Some dq
  else if String.eqb name "apos" then Some "'"
  else
    match name with
    | String "#" (String "x" (String _ _ as digits)) =>
        n ← hexDigits 0 digits;
        if isXmlChar n then Some (utf8Encode n) else None
    | String "#" (String _ _ as digits) =>
        n ← decimalDigits 0 digits;
        if isXmlChar n then Some (utf8Encode n) else None
    | _ => None
    end.

(** Modelled from the spec: the expansion of the references of character
    data.  [ref] is [Some name] while the scan is inside a reference,
    [name] being the bytes read since its ampersand; [brackets] counts the
    [']'] that directly precede the current byte, so that "]]>" is
    recognised. *)
Fixpoint expandRefs (ref : option string) (brackets : nat) (s : string) : option string :=
  match s with
  | EmptyString =>
      match ref with
      | None => Some ""
      | Some _ => None
      end
  | String c rest =>
      match ref with
      | None =>
          if Ascii.eqb c "&" then expandRefs (Some "") 0 rest
          else if Ascii.eqb c "<" then None
          else if Ascii.eqb c ">" && Nat.leb 2 brackets then None
          else String c <$> expandRefs None (if Ascii.eqb c "]" then S brackets else 0) rest
      | Some name =>
          if Ascii.eqb c ";" then
            x ← expandReference name;
            String.append x <$> expandRefs None 0 rest
          else expandRefs (Some (name +:+ String c "")) 0 rest
      end
  end.

(** Modelled from the spec: un-escaping the character data [s] of an
    element: validity of the characters, then line ends, then
    references. *)
Definition unescape (s : string) : option string :=
  if xmlChars s then expandRefs None 0 (normalizeEOL false s) else None.

(** Modelled from the spec: the strings that come back unchanged have no
    #xD: a #xD is read as #xA. *)
Fixpoint noCR (s : string) : bool :=
  match s with
  | EmptyString => true
  | String c rest => negb (Ascii.eqb c cr) && noCR rest
  end.

(** Modelled from the spec: how that parser finds the scalar values.  It
    splits the document at ['<'] and ['>'] into markup and character data,
    and reports every element whose content is character data only, that
    is a start tag, text, and the end tag of the same name, as the pair of
    the name and the text as it stands in the document.  Of the markup
    only this pairing is modelled: attributes, the nesting of the other
    elements and the XML declaration are read over. *)
Inductive scanState : Type :=
| InText (opened : option string) (txt : string)
| InMarkup (opened : option string) (txt : string) (tag : string).

Definition isClosingOf (opened : option string) (tag : string) : option string :=
  match opened with
  | Some name => if String.eqb tag (String "/" name) then Some name else None
  | None => None
  end.

Definition startsWithSlash (tag : string) : bool :=
  match tag with
  | String c _ => Ascii.eqb c "/"
  | EmptyString => false
  end.

Definition scanStep (st : scanState) (c : ascii) : scanState * list (string * string) :=
  match st with
  | InText opened txt =>
      if Ascii.eqb c "<" then (InMarkup opened txt "", [])
      else (InText opened (txt +:+ String c ""), [])
  | InMarkup opened txt tag =>
      if Ascii.eqb c ">" then
        if startsWithSlash tag then
          match isClosingOf opened tag with
          | Some name => (InText None "", [(name, txt)])
          | None => (InText None "", [])
          end
        else (InText (Some tag) "", [])
      else (InMarkup opened txt (tag +:+ String c ""), [])
  end.

Fixpoint scan (st : scanState) (s : string) : scanState * list (string * string) :=
  match s with
  | EmptyString => (st, [])
  | String c rest =>
      let '(st1, out1) := scanStep st c in
      let '(st2, out2) := scan st1 rest in
      (st2, out1 ++ out2)
  end.

(** The text-only elements of a document, with their text as embedded. *)
Definition leaves (doc : string) : list (string * string) :=
  snd (scan (InText None "") doc).

(** Modelled from the spec: what the parser hands over for a document: the
    text-only elements with their text un-escaped.  The characters of the
    whole document are checked and its line ends normalised before it is
    split; a reference that cannot be expanded rejects the document. *)
Definition fields (doc : string) : option (list (string * string)) :=
  if xmlChars doc then
    mapM (fun leaf => pair (fst leaf) <$> expandRefs None 0 (snd leaf))
         (leaves (normalizeEOL false doc))
  else None.

(** *** What the reader is expected to find *)

(** A scalar of the outbound order: a string field, or the integer
    quantity of an item. *)
Inductive scalar : Type :=
| TextValue (s : string)
| IntValue (n : Z).

(** The text the encoder embeds for a scalar, and the text it stands for. *)
Definition embeddedText (v : scalar) : string :=
  match v with
  | TextValue s => xmlEscape s
  | IntValue n => Sprintf_d n
  end.

Definition originalText (v : scalar) : string :=
  match v with
  | TextValue s => s
  | IntValue n => Sprintf_d n
  end.

Definition scalarsOfAddress (a : ERPAddress) : list (string * scalar) :=
  [("tem:Name", TextValue (Name a));
   ("tem:Company", TextValue (Company a));
   ("tem:AddressLine1", TextValue (AddressLine1 a));
   ("tem:AddressLine2", TextValue (AddressLine2 a));
   ("tem:City", TextValue (City a));
   ("tem:State", TextValue (State a));
   ("tem:PostalCode", TextValue (PostalCode a));
   ("tem:Country", TextValue (Country a));
   ("tem:Phone", TextValue (Phone a))].

(** The scalars in front of the items, in document order. *)
Definition scalarsOfHead (e : ERPOrder) : list (string * scalar) :=
  [("tem:OrderID", TextValue (OrderID e));
   ("tem:OrderNumber", TextValue (OrderNumber e));
   ("tem:CustomerEmail", TextValue (CustomerEmail e));
   ("tem:CustomerName", TextValue (CustomerName e));
   ("tem:CustomerPhone", TextValue (CustomerPhone e));
   ("tem:OrderDate", TextValue (OrderDate e));
   ("tem:TotalAmount", TextValue (TotalAmount e));
   ("tem:SubtotalAmount", TextValue (SubtotalAmount e));
   ("tem:TaxAmount", TextValue (TaxAmount e));
   ("tem:Currency", TextValue (Currency e));
   ("tem:PaymentStatus", TextValue (PaymentStatus e));
   ("tem:FulfillmentStatus", TextValue (FulfillmentStatus e))]
  ++ scalarsOfAddress (ShippingAddress e) ++ scalarsOfAddress (BillingAddress e).

Definition scalarsOfItem (item : ERPItem) : list (string * scalar) :=
  [("tem:SKU", TextValue (SKU item));
   ("tem:ProductName", TextValue (ProductName item));
   ("tem:Quantity", IntValue (Quantity item));
   ("tem:UnitPrice", TextValue (UnitPrice item));
   ("tem:VariantTitle", TextValue (VariantTitle item))].

Definition embed (f : string * scalar) : string * string :=
  (fst f, embeddedText (snd f)).

(** With no item at all, the items element itself holds nothing but the
    line break and indentation of the template, and is reported too. *)
Definition emptyItemsText : string := nl +:+ "        ".

Definition embeddedLeaves (e : ERPOrder) : list (string * string) :=
  map embed (scalarsOfHead e)
  ++ match Items e with
     | [] => [("tem:Items", emptyItemsText)]
     | items => map embed (flat_map scalarsOfItem items)
     end
  ++ [embed ("tem:Timestamp", TextValue (Timestamp e))].

(** The name and the original text of a scalar, and the fields of an
    order as a reader should find them. *)
Definition original (f : string * scalar) : string * string :=
  (fst f, originalText (snd f)).

Definition originalFields (e : ERPOrder) : list (string * string) :=
  map original (scalarsOfHead e)
  ++ match Items e with
     | [] => [("tem:Items", emptyItemsText)]
     | items => map original (flat_map scalarsOfItem items)
     end
  ++ [original ("tem:Timestamp", TextValue (Timestamp e))].

(** Every scalar of an order, and the orders all of whose texts are made of
    XML characters and hold no #xD. *)
Definition allScalars (e : ERPOrder) : list (string * scalar) :=
  scalarsOfHead e ++ flat_map scalarsOfItem (Items e)
  ++ [("tem:Timestamp", TextValue (Timestamp e))].

Definition cleanText (s : string) : bool := xmlChars s && noCR s.

Definition cleanOrder (e : ERPOrder) : bool :=
  forallb (fun f => cleanText (originalText (snd f))) (allScalars e).

(** *** A left inverse of [xmlEscape] *)

(** Not a parser: the replacement of the five references that
    [html.EscapeString] writes by the bytes they were written for, every
    other byte being copied.  It only serves to show that two strings, or
    two orders, with the same escaped form are the same. *)
Definition quotedByte (name : string) : option ascii :=
  if String.eqb name "amp" then Some "&"%char
  else if String.eqb name "#39" then Some "'"%char
  else if String.eqb name "lt" then Some "<"%char
  else if String.eqb name "gt" then Some ">"%char
  else if String.eqb name "#34" then Some "034"%char
  else None.

Fixpoint unquoteFrom (ref : option string) (s : string) : option string :=
  match s with
  | EmptyString =>
      match ref with
      | None => Some ""
      | Some _ => None
      end
  | String c rest =>
      match ref with
      | None =>
          if Ascii.eqb c "&" then unquoteFrom (Some "") rest
          else if Ascii.eqb c "<" then None
          else String c <$> unquoteFrom None rest
      | Some name =>
          if Ascii.eqb c ";" then
            x ← quotedByte name;
            String x <$> unquoteFrom None rest
          else unquoteFrom (Some (name +:+ String c "")) rest
      end
  end.

Definition unquote (s : string) : option string := unquoteFrom None s.

(** The text-only elements of a document with that inverse applied to
    their text, and what it gives for the envelope of an order. *)
Definition unquotedLeaves (doc : string) : list (string * option string) :=
  map (fun leaf => (fst leaf, unquote (snd leaf))) (leaves doc).

Definition decoded (f : string * scalar) : string * option string :=
  (fst f, Some (originalText (snd f))).

Definition decodedFields (e : ERPOrder) : list (string * option string) :=
  map decoded (scalarsOfHead e)
  ++ match Items e with
     | [] => [("tem:Items", Some emptyItemsText)]
     | items => map decoded (flat_map scalarsOfItem items)
     end
  ++ [decoded ("tem:Timestamp", TextValue (Timestamp e))].

(** *** Bookkeeping for the proofs about [scan] *)

(** No ['<'] in a string; no ['<'] and no ['&']. *)
Fixpoint noLt (s : string) : bool :=
  match s with
  | EmptyString => true
  | String c rest => negb (Ascii.eqb c "<") && noLt rest
  end.

Fixpoint plain (s : string) : bool :=
  match s with
  | EmptyString => true
  | String c rest => negb (Ascii.eqb c "<") && negb (Ascii.eqb c "&") && plain rest
  end.

(** A document cut into template literals and embedded texts. *)
Inductive piece : Type :=
| Lit (s : string)
| Txt (t : string).

Fixpoint render (ps : list piece) : string :=
  match ps with
  | [] => ""
  | Lit s :: ps' => s +:+ render ps'
  | Txt t :: ps' => t +:+ render ps'
  end.

(** [scan] piece by piece: an embedded text met outside markup is taken
    over in one step. *)
Fixpoint scanPieces (st : scanState) (ps : list piece)
  : scanState * list (string * string) :=
  match ps with
  | [] => (st, [])
  | Lit s :: ps' =>
      let '(st1, out1) := scan st s in
      let '(st2, out2) := scanPieces st1 ps' in
      (st2, out1 ++ out2)
  | Txt t :: ps' =>
      match st with
      | InText opened txt => scanPieces (InText opened (txt +:+ t)) ps'
      | InMarkup _ _ _ =>
          let '(st1, out1) := scan st t in
          let '(st2, out2) := scanPieces st1 ps' in
          (st2, out1 ++ out2)
      end
  end.

Fixpoint textsOk (ps : list piece) : bool :=
  match ps with
  | [] => true
  | Lit _ :: ps' => textsOk ps'
  | Txt t :: ps' => noLt t && textsOk ps'
  end.

(** ** Definitions used to state the properties *)

(** The address literal that [transformOrder] writes out twice, once for
    the shipping and once for the billing address. *)
Definition transformAddress (a : Address) : ERPAddress :=
  {| Name := Sprintf_s_s (Address_FirstName a) (Address_LastName a);
     Company := Address_Company a;
     AddressLine1 := Address_Address1 a;
     AddressLine2 := Address_Address2 a;
     City := Address_City a;
     State := Address_Province a;
     PostalCode := Address_Zip a;
     Country := Address_Country a;
     Phone := Address_Phone a |}.

(** The record [transformOrder] returns, written without the loop. *)
Definition transformedOrder (shopifyOrder : ShopifyOrder) (now : string) : ERPOrder :=
  {| OrderID := Sprintf_d (Shopify_ID shopifyOrder);
     OrderNumber := Sprintf_d (Shopify_OrderNumber shopifyOrder);
     CustomerEmail := Shopify_Email shopifyOrder;
     CustomerName :=
       Sprintf_s_s (Customer_FirstName (Shopify_Customer shopifyOrder))
                   (Customer_LastName (Shopify_Customer shopifyOrder));
     CustomerPhone := Customer_Phone (Shopify_Customer shopifyOrder);
     OrderDate := Shopify_CreatedAt shopifyOrder;
     TotalAmount := Shopify_TotalPrice shopifyOrder;
     SubtotalAmount := Shopify_SubtotalPrice shopifyOrder;
     TaxAmount := Shopify_TotalTax shopifyOrder;
     Currency := Shopify_Currency shopifyOrder;
     PaymentStatus := Shopify_FinancialStatus shopifyOrder;
     FulfillmentStatus := Shopify_FulfillmentStatus shopifyOrder;
     Items := map transformItem (Shopify_LineItems shopifyOrder);
     ShippingAddress := transformAddress (Shopify_ShippingAddress shopifyOrder);
     BillingAddress := transformAddress (Shopify_BillingAddress shopifyOrder);
     Timestamp := now |}.

(** The order [o] with another sequence of line items. *)
Definition withLineItems (o : ShopifyOrder) (lineItems : list LineItem) : ShopifyOrder :=
  {| Shopify_ID := Shopify_ID o;
     Shopify_OrderNumber := Shopify_OrderNumber o;
     Shopify_Email := Shopify_Email o;
     Shopify_CreatedAt := Shopify_CreatedAt o;
     Shopify_UpdatedAt := Shopify_UpdatedAt o;
     Shopify_TotalPrice := Shopify_TotalPrice o;
     Shopify_SubtotalPrice := Shopify_SubtotalPrice o;
     Shopify_TotalTax := Shopify_TotalTax o;
     Shopify_Currency := Shopify_Currency o;
     Shopify_FinancialStatus := Shopify_FinancialStatus o;
     Shopify_FulfillmentStatus := Shopify_FulfillmentStatus o;
     Shopify_Customer := Shopify_Customer o;
     Shopify_LineItems := lineItems;
     Shopify_ShippingAddress := Shopify_ShippingAddress o;
     Shopify_BillingAddress := Shopify_BillingAddress o |}.

(** The order [o] with another [created_at]. *)
Definition withCreatedAt (o : ShopifyOrder) (createdAt : string) : ShopifyOrder :=
  {| Shopify_ID := Shopify_ID o;
     Shopify_OrderNumber := Shopify_OrderNumber o;
     Shopify_Email := Shopify_Email o;
     Shopify_CreatedAt := createdAt;
     Shopify_UpdatedAt := Shopify_UpdatedAt o;
     Shopify_TotalPrice := Shopify_TotalPrice o;
     Shopify_SubtotalPrice := Shopify_SubtotalPrice o;
     Shopify_TotalTax := Shopify_TotalTax o;
     Shopify_Currency := Shopify_Currency o;
     Shopify_FinancialStatus := Shopify_FinancialStatus o;
     Shopify_FulfillmentStatus := Shopify_FulfillmentStatus o;
     Shopify_Customer := Shopify_Customer o;
     Shopify_LineItems := Shopify_LineItems o;
     Shopify_ShippingAddress := Shopify_ShippingAddress o;
     Shopify_BillingAddress := Shopify_BillingAddress o |}.

(** The outbound order [e] with another time stamp. *)
Definition withTimestamp (e : ERPOrder) (timestamp : string) : ERPOrder :=
  {| OrderID := OrderID e; OrderNumber := OrderNumber e;
     CustomerEmail := CustomerEmail e; CustomerName := CustomerName e;
     CustomerPhone := CustomerPhone e; OrderDate := OrderDate e;
     TotalAmount := TotalAmount e; SubtotalAmount := SubtotalAmount e;
     TaxAmount := TaxAmount e; Currency := Currency e;
     PaymentStatus := PaymentStatus e; FulfillmentStatus := FulfillmentStatus e;
     Items := Items e; ShippingAddress := ShippingAddress e;
     BillingAddress := BillingAddress e; Timestamp := timestamp |}.

(** The item blocks of a sequence of items, one after the other. *)
Fixpoint itemBlocks (items : list ERPItem) : string :=
  match items with
  | [] => ""
  | item :: items' => itemBlock item +:+ itemBlocks items'
  end.

(** The endpoint and action [sendToERP] reads from the environment. *)
Definition erpEndpointOf (w : World) : string :=
  getenv_default w "ERP_ENDPOINT" DefaultERPEndpoint.

Definition soapActionOf (w : World) : string :=
  getenv_default w "SOAP_ACTION" SOAPAction.

(** [http.NewRequest] accepts the endpoint URL. *)
Definition requestAccepted (w : World) : Prop :=
  NewRequest_error w (erpEndpointOf w) = None.

(** A response was received and its status is outside 200..299. *)
Definition non2xxResponse (r : DoResult) : Prop :=
  match r with
  | DoError _ => False
  | DoResponse statusCode _ _ => statusCode < 200 \/ 300 <= statusCode
  end.

(** A round trip that was no success: no response at all, or a response
    with a status outside 200..299. *)
Definition failedAttempt (r : DoResult) : Prop :=
  match r with
  | DoError _ => True
  | DoResponse statusCode _ _ => statusCode < 200 \/ 300 <= statusCode
  end.

(** A response with a status in 200..299, whatever its header and body. *)
Definition okResponse (r : DoResult) : Prop :=
  match r with
  | DoError _ => False
  | DoResponse statusCode _ _ => 200 <= statusCode < 300
  end.

(** Attempt [k] is within the budget and is the first to see a 2xx. *)
Definition firstSuccessAt (w : World) (k : Z) : Prop :=
  1 <= k <= MaxRetries
  /\ okResponse (Do w k)
  /\ forall j : Z, 1 <= j < k -> failedAttempt (Do w j).

(** No attempt within the budget sees a 2xx. *)
Definition exhausted (w : World) : Prop :=
  forall k : Z, 1 <= k <= MaxRetries -> failedAttempt (Do w k).

(** The request every iteration builds. *)
Definition theRequest (ep sa xml : string) : Request :=
  Header_Set (Header_Set (Header_Set (mkRequest "POST" ep ∅ xml)
    "Content-Type" "text/xml; charset=utf-8")
    "SOAPAction" (dq +:+ sa +:+ dq))
    "User-Agent" "Shopify-ERP-Middleware/1.0".

(** The [LogSOAPResponse] entry written for the outcome of a round trip. *)
Definition responseLogged (rid oid : string) (r : DoResult) : Event :=
  match r with
  | DoError err => LogSOAPResponse rid 0 None "" oid (Some err)
  | DoResponse s h b => LogSOAPResponse rid s (Some h) b oid None
  end.

(** The events of one attempt, sleep excluded. *)
Definition attemptEvents (w : World) (ep sa xml rid oid : string) (attempt : Z)
  : list Event :=
  [LogOutgoingSOAP rid ep (ReqHeader (theRequest ep sa xml)) xml oid;
   RoundTrip attempt (theRequest ep sa xml);
   responseLogged rid oid (Do w attempt)].

(** The schedule of [n] attempts in a row: attempt [k + 1] comes after a
    pause of [k * RetryDelay]. *)
Fixpoint scheduleOf (n : nat) : list Step :=
  match n with
  | O => []
  | S O => [Attempt 1]
  | S (S _ as n') =>
      scheduleOf n' ++ [Pause (Z.of_nat n' * RetryDelay); Attempt (Z.of_nat n' + 1)]
  end.

(** The order of the concrete scenario of the specification (section 8);
    the fields the scenario does not name are absent. *)
Definition scenarioOrder : ShopifyOrder :=
  {| Shopify_ID := 12345;
     Shopify_OrderNumber := 1001;
     Shopify_Email := ""; Shopify_CreatedAt := ""; Shopify_UpdatedAt := "";
     Shopify_TotalPrice := "150.00";
     Shopify_SubtotalPrice := ""; Shopify_TotalTax := ""; Shopify_Currency := "";
     Shopify_FinancialStatus := ""; Shopify_FulfillmentStatus := "";
     Shopify_Customer := zeroCustomer;
     Shopify_LineItems :=
       [ {| LineItem_ID := 0; LineItem_ProductID := 0; LineItem_VariantID := 0;
            LineItem_Title := ""; LineItem_Name := "";
            LineItem_Quantity := 2;
            LineItem_Price := "65.00";
            LineItem_SKU := "TEST-SKU-001";
            LineItem_VariantTitle := ""; LineItem_FulfillmentService := "" |} ];
     Shopify_ShippingAddress := zeroAddress;
     Shopify_BillingAddress := zeroAddress |}.

(** Worlds used as concrete inputs: an endpoint that answers every request
    with the same status, one that refuses every connection, and one that
    answers 503 and then 200 from the second request on. *)
Definition worldAlways (statusCode : Z) : World :=
  {| Getenv := fun _ => "";
     NewRequest_error := fun _ => None;
     Do := fun _ => DoResponse statusCode ∅ "" |}.

Definition worldRefused : World :=
  {| Getenv := fun _ => "";
     NewRequest_error := fun _ => None;
     Do := fun _ => DoError (ErrNew "connection refused") |}.

Definition worldSecondOk : World :=
  {| Getenv := fun _ => "";
     NewRequest_error := fun _ => None;
     Do := fun k => if k <? 2 then DoResponse 503 ∅ "busy"
                    else DoResponse 200 ∅ "<ok/>" |}.

(** An outbound order used as a concrete input. *)
Definition sampleERPOrder : ERPOrder :=
  transformedOrder zeroShopifyOrder "2026-03-01T08:00:00Z".

(** The reading of C3 for the non-2xx case: the returned error determines
    the last status observed. *)
Definition reportsLastStatus (report : error -> option Z) : Prop :=
  forall (w : World) (erpOrder : ERPOrder) (requestID : string)
         (err : error) (tr : list Event) (statusCode : Z) (h : Header) (b : string),
    requestAccepted w ->
    exhausted w ->
    Do w MaxRetries = DoResponse statusCode h b ->
    sendToERP w erpOrder requestID = Some (Some err, tr) ->
    report err = Some statusCode.

(** ** Request identifiers: [generateRequestID] *)

(** [hex.EncodeToString] of the Go standard library: two digits of
    [hextable] per byte, the high four bits first. *)
Definition hextable : string := "0123456789abcdef".

Definition hexDigit (n : N) : ascii :=
  match String.get (N.to_nat n) hextable with
  | Some c => c
  | None => "000"%char
  end.

Fixpoint hex_EncodeToString (src : list ascii) : string :=
  match src with
  | [] => ""
  | v :: rest =>
      String (hexDigit (N.shiftr (N_of_ascii v) 4))
        (String (hexDigit (N.land (N_of_ascii v) 15))
           (hex_EncodeToString rest))
  end.

(** [rand.Read(b)] overwrites every byte of the slice; [random i] is the
    i-th byte the generator hands out during the call. *)
Definition rand_Read (random : nat -> ascii) (b : list ascii) : list ascii :=
  imap (fun i _ => random i) b.

(** [generateRequestID]: [make([]byte, 8)], [rand.Read], hex encoding. *)
Definition generateRequestID (random : nat -> ascii) : string :=
  let bytes := replicate 8 "000"%char in
  let bytes := rand_Read random bytes in
  hex_EncodeToString bytes.

(** ** The webhook handler: [handleWebhook] *)

(** What the handler reads of the inbound request: the method, the header
    and the outcome of [io.ReadAll(r.Body)]. *)
Record HttpRequest := mkHttpRequest {
  Req_Method : string;
  Req_Header : Header;
  Req_Body : error + string
}.

(** What the handler writes: a plain-text line ([http.Error]) or the
    [map[string]string] handed to the JSON encoder. *)
Inductive ResponseBody : Type :=
| TextBody (s : string)
| JSONBody (m : gmap string string).

Record HttpResponse := mkHttpResponse {
  Resp_Status : Z;
  Resp_ContentType : string;
  Resp_Body : ResponseBody
}.

(** [http.Error(w, msg, code)]. *)
Definition http_Error (msg : string) (code : Z) : HttpResponse :=
  {| Resp_Status := code;
     Resp_ContentType := "text/plain; charset=utf-8";
     Resp_Body := TextBody (msg +:+ nl) |}.

(** The effects of one handler call: the incoming-webhook log entry, and
    the events of [sendToERP]. *)
Inductive ServerEvent : Type :=
| LogIncomingWebhook (requestID : string) (headers : Header) (body orderID : string)
| Delivery (ev : Event).

(** The surroundings of one handler call: those of [sendToERP], the random
    source, the JSON decoder for [ShopifyOrder] ([json.Unmarshal], of the
    standard library, taken as given) and the clock reading used by
    [transformOrder]. *)
Record Surroundings := mkSurroundings {
  world : World;
  random : nat -> ascii;
  json_Unmarshal : string -> error + ShopifyOrder;
  clock : string
}.

(** [handleWebhook].  The result is the response written and the events,
    in order; the outer [None] stands for a panic or for [sendToERP]
    running out of fuel. *)
Definition handleWebhook (env : Surroundings) (r : HttpRequest)
  : option (HttpResponse * list ServerEvent) :=
  let requestID := generateRequestID (random env) in
  if negb (String.eqb (Req_Method r) "POST") then
    Some (http_Error "Method not allowed" 405, [])
  else
    match Req_Body r with
    | inl err => Some (http_Error "Bad request" 400, [])
    | inr body =>
      match json_Unmarshal env body with
      | inl err => Some (http_Error "Invalid JSON" 400, [])
      | inr shopifyOrder =>
        let orderID := Sprintf_d (Shopify_ID shopifyOrder) in
        let tr := [LogIncomingWebhook requestID (Req_Header r) body orderID] in
        erpOrder ← transformOrder shopifyOrder (clock env);
        sent ← sendToERP (world env) erpOrder requestID;
        let tr := tr ++ map Delivery (snd sent) in
        match fst sent with
        | Some err => Some (http_Error "Internal server error" 500, tr)
        | None =>
          let response : gmap string string :=
            <["message" := "Order successfully sent to ERP"]>
              (<["request_id" := requestID]>
                 (<["order_id" := orderID]>
                    (<["status" := "success"]> ∅))) in
          Some ({| Resp_Status := 200;
                   Resp_ContentType := "application/json";
                   Resp_Body := JSONBody response |}, tr)
        end
      end
    end.

(** ** Definitions used to state the further properties *)

(** *** Characters of a string *)

(** The five bytes [html.EscapeString] replaces. *)
Definition isSpecial (c : ascii) : bool :=
  Ascii.eqb c "&" || Ascii.eqb c "'" || Ascii.eqb c "<" || Ascii.eqb c ">"
  || Ascii.eqb c "034".

Fixpoint hasSpecial (s : string) : bool :=
  match s with
  | EmptyString => false
  | String c rest => isSpecial c || hasSpecial rest
  end.

(** The number of occurrences of a character. *)
Fixpoint countChar (c : ascii) (s : string) : nat :=
  match s with
  | EmptyString => 0%nat
  | String x rest => ((if Ascii.eqb x c then 1 else 0) + countChar c rest)%nat
  end.

Fixpoint allChars (p : ascii -> bool) (s : string) : bool :=
  match s with
  | EmptyString => true
  | String c rest => p c && allChars p rest
  end.

(** A minus sign or a decimal digit; a digit or a letter a..f. *)
Definition isDecimalChar (c : ascii) : bool :=
  Ascii.eqb c "-" || ((48 <=? Z.of_N (N_of_ascii c)) && (Z.of_N (N_of_ascii c) <=? 57)).

Definition isLowerHex (c : ascii) : bool :=
  let n := Z.of_N (N_of_ascii c) in
  ((48 <=? n) && (n <=? 57)) || ((97 <=? n) && (n <=? 102)).

(** The value of a hexadecimal digit, to read an identifier back. *)
Definition unhexDigit (c : ascii) : N :=
  let n := N_of_ascii c in
  if (n <? 58)%N then (n - 48)%N else (n - 87)%N.

Fixpoint countPieces (c : ascii) (ps : list piece) : nat :=
  match ps with
  | [] => 0%nat
  | Lit s :: ps' => (countChar c s + countPieces c ps')%nat
  | Txt t :: ps' => (countChar c t + countPieces c ps')%nat
  end.

(** *** Inbound fields that [transformOrder] reads *)

Definition mappedItemFields (item : LineItem) : string * string * Z * string * string :=
  (LineItem_SKU item, LineItem_Title item, LineItem_Quantity item,
   LineItem_Price item, LineItem_VariantTitle item).

Definition mappedAddressFields (a : Address) : list string :=
  [Address_FirstName a; Address_LastName a; Address_Company a; Address_Address1 a;
   Address_Address2 a; Address_City a; Address_Province a; Address_Zip a;
   Address_Country a; Address_Phone a].

(** Two inbound orders agree on every field [transformOrder] reads. *)
Definition sameMappedFields (o o' : ShopifyOrder) : Prop :=
  Shopify_ID o = Shopify_ID o'
  /\ Shopify_OrderNumber o = Shopify_OrderNumber o'
  /\ Shopify_Email o = Shopify_Email o'
  /\ Shopify_CreatedAt o = Shopify_CreatedAt o'
  /\ Shopify_TotalPrice o = Shopify_TotalPrice o'
  /\ Shopify_SubtotalPrice o = Shopify_SubtotalPrice o'
  /\ Shopify_TotalTax o = Shopify_TotalTax o'
  /\ Shopify_Currency o = Shopify_Currency o'
  /\ Shopify_FinancialStatus o = Shopify_FinancialStatus o'
  /\ Shopify_FulfillmentStatus o = Shopify_FulfillmentStatus o'
  /\ Customer_FirstName (Shopify_Customer o) = Customer_FirstName (Shopify_Customer o')
  /\ Customer_LastName (Shopify_Customer o) = Customer_LastName (Shopify_Customer o')
  /\ Customer_Phone (Shopify_Customer o) = Customer_Phone (Shopify_Customer o')
  /\ map mappedItemFields (Shopify_LineItems o) = map mappedItemFields (Shopify_LineItems o')
  /\ mappedAddressFields (Shopify_ShippingAddress o)
     = mappedAddressFields (Shopify_ShippingAddress o')
  /\ mappedAddressFields (Shopify_BillingAddress o)
     = mappedAddressFields (Shopify_BillingAddress o').

(** The order [o] with other customer name parts. *)
Definition withCustomerNames (o : ShopifyOrder) (first last : string) : ShopifyOrder :=
  {| Shopify_ID := Shopify_ID o;
     Shopify_OrderNumber := Shopify_OrderNumber o;
     Shopify_Email := Shopify_Email o;
     Shopify_CreatedAt := Shopify_CreatedAt o;
     Shopify_UpdatedAt := Shopify_UpdatedAt o;
     Shopify_TotalPrice := Shopify_TotalPrice o;
     Shopify_SubtotalPrice := Shopify_SubtotalPrice o;
     Shopify_TotalTax := Shopify_TotalTax o;
     Shopify_Currency := Shopify_Currency o;
     Shopify_FinancialStatus := Shopify_FinancialStatus o;
     Shopify_FulfillmentStatus := Shopify_FulfillmentStatus o;
     Shopify_Customer :=
       {| Customer_ID := Customer_ID (Shopify_Customer o);
          Customer_Email := Customer_Email (Shopify_Customer o);
          Customer_FirstName := first;
          Customer_LastName := last;
          Customer_Phone := Customer_Phone (Shopify_Customer o) |};
     Shopify_LineItems := Shopify_LineItems o;
     Shopify_ShippingAddress := Shopify_ShippingAddress o;
     Shopify_BillingAddress := Shopify_BillingAddress o |}.

(** The scenario order again, with other values in fields that
    [transformOrder] does not read. *)
Definition scenarioOrderOtherwise : ShopifyOrder :=
  {| Shopify_ID := 12345;
     Shopify_OrderNumber := 1001;
     Shopify_Email := ""; Shopify_CreatedAt := "";
     Shopify_UpdatedAt := "2024-01-16T09:00:00Z";
     Shopify_TotalPrice := "150.00";
     Shopify_SubtotalPrice := ""; Shopify_TotalTax := ""; Shopify_Currency := "";
     Shopify_FinancialStatus := ""; Shopify_FulfillmentStatus := "";
     Shopify_Customer := mkCustomer 77 "someone@example.com" "" "" "";
     Shopify_LineItems :=
       [ {| LineItem_ID := 9; LineItem_ProductID := 8; LineItem_VariantID := 7;
            LineItem_Title := ""; LineItem_Name := "Test Product - Large";
            LineItem_Quantity := 2;
            LineItem_Price := "65.00";
            LineItem_SKU := "TEST-SKU-001";
            LineItem_VariantTitle := ""; LineItem_FulfillmentService := "manual" |} ];
     Shopify_ShippingAddress := mkAddress "" "" "" "" "" "" "" "" "" "" "CA" "US";
     Shopify_BillingAddress := zeroAddress |}.

(** *** Reading the trace of a delivery *)

(** The events of [n] attempts in a row, with the sleeps in between. *)
Fixpoint deliveryTrace (w : World) (ep sa xml rid oid : string) (n : nat) : list Event :=
  match n with
  | O => []
  | S O => attemptEvents w ep sa xml rid oid 1
  | S (S _ as n') =>
      deliveryTrace w ep sa xml rid oid n'
      ++ [Sleep (backoff (Z.of_nat n'))]
      ++ attemptEvents w ep sa xml rid oid (Z.of_nat n' + 1)
  end.

(** The time slept in a trace, in nanoseconds. *)
Definition sleepOf (ev : Event) : Z :=
  match ev with
  | Sleep d => d
  | _ => 0
  end.

Definition totalSleep (tr : list Event) : Z :=
  foldr (fun ev acc => sleepOf ev + acc) 0 tr.

Definition isOutgoingLog (ev : Event) : bool :=
  match ev with LogOutgoingSOAP _ _ _ _ _ => true | _ => false end.

Definition isResponseLog (ev : Event) : bool :=
  match ev with LogSOAPResponse _ _ _ _ _ _ => true | _ => false end.

Definition isSleep (ev : Event) : bool :=
  match ev with Sleep _ => true | _ => false end.

Definition countEvents (p : Event -> bool) (tr : list Event) : nat :=
  length (List.filter p tr).


(** If the event is a log entry, it carries these two identifiers. *)
Definition carriesIDs (rid oid : string) (ev : Event) : Prop :=
  match ev with
  | LogOutgoingSOAP rid' _ _ _ oid' => rid' = rid /\ oid' = oid
  | LogSOAPResponse rid' _ _ _ oid' _ => rid' = rid /\ oid' = oid
  | _ => True
  end.

(** A world whose configured endpoint is not a URL. *)
Definition worldBadURL : World :=
  {| Getenv := fun key => if String.eqb key "ERP_ENDPOINT" then "http://[::1" else "";
     NewRequest_error := fun url => if String.eqb url "http://[::1"
                                    then Some (ErrNew "missing ']' in host") else None;
     Do := fun _ => DoResponse 200 ∅ "" |}.

(** *** Reading the outcome of a handler call *)




(** The body cannot be read, or does not decode. *)
Definition unusablePayload (env : Surroundings) (r : HttpRequest) : Prop :=
  match Req_Body r with
  | inl _ => True
  | inr body => exists err : error, json_Unmarshal env body = inl err
  end.

(** Surroundings used as a concrete input: the endpoint answers 503 and
    then 200, and the body [{}] decodes to the scenario order. *)
Definition sampleSurroundings : Surroundings :=
  {| world := worldSecondOk;
     random := fun i => ascii_of_nat (17 * i + 3);
     json_Unmarshal := fun body => if String.eqb body "{}" then inr scenarioOrder
                                   else inl (ErrNew "unexpected end of JSON input");
     clock := "2026-03-01T08:00:00Z" |}.

(** ** Definitions used to state the properties of the reading side *)

(** Two outbound orders used as concrete inputs: one whose customer name
    holds each of the five escaped characters, and one whose customer name
    holds a #xD. *)
Definition quotedOrder : ERPOrder :=
  transformedOrder
    (withCustomerNames scenarioOrder "Tom & Jerry" ("<O'Neil " +:+ dq +:+ "Jr" +:+ dq +:+ ">"))
    "2026-03-01T08:00:00Z".

Definition carriageReturnOrder : ERPOrder :=
  transformedOrder (withCustomerNames scenarioOrder (String cr "Tom") "Jerry")
                   "2026-03-01T08:00:00Z".

(** [cleanText] piece by piece. *)
Fixpoint piecesClean (ps : list piece) : bool :=
  match ps with
  | [] => true
  | Lit s :: ps' => cleanText s && piecesClean ps'
  | Txt t :: ps' => cleanText t && piecesClean ps'
  end.

(** ** Definitions used to state the order of the item blocks *)

(** The block of one inbound line item: the text that the loop body of
    [createSOAPEnvelope] appends (main.go:333-340), filled with the fields
    of the inbound item that [transformOrder] assigns to the outbound
    item at the same index (main.go:360-366). *)
Definition itemBlockOf (item : LineItem) : string :=
  "
          <tem:Item>
            <tem:SKU>" +:+ xmlEscape (LineItem_SKU item) +:+ "</tem:SKU>
            <tem:ProductName>" +:+ xmlEscape (LineItem_Title item) +:+ "</tem:ProductName>
            <tem:Quantity>" +:+ Sprintf_d (LineItem_Quantity item) +:+ "</tem:Quantity>
            <tem:UnitPrice>" +:+ xmlEscape (LineItem_Price item) +:+ "</tem:UnitPrice>
            <tem:VariantTitle>" +:+ xmlEscape (LineItem_VariantTitle item) +:+ "</tem:VariantTitle>
          </tem:Item>".

(** The markup of a document: what stands between each ['<'] and the next
    ['>'], in document order.  The state is the markup being read, if
    any. *)
Definition tagStep (st : option string) (c : ascii) : option string * list string :=
  match st with
  | None => if Ascii.eqb c "<" then (Some "", []) else (None, [])
  | Some tag =>
      if Ascii.eqb c ">" then (None, [tag]) else (Some (tag +:+ String c ""), [])
  end.

Fixpoint tagScan (st : option string) (s : string) : option string * list string :=
  match s with
  | EmptyString => (st, [])
  | String c rest =>
      let '(st1, out1) := tagStep st c in
      let '(st2, out2) := tagScan st1 rest in
      (st2, out1 ++ out2)
  end.

Definition tags (doc : string) : list string := snd (tagScan None doc).

(** How many times the tag [<name>] stands in a document. *)
Definition countTag (name doc : string) : nat :=
  length (List.filter (String.eqb name) (tags doc)).

(** The tags of one item block. *)
Definition itemTags : list string :=
  ["tem:Item"; "tem:SKU"; "/tem:SKU"; "tem:ProductName"; "/tem:ProductName";
   "tem:Quantity"; "/tem:Quantity"; "tem:UnitPrice"; "/tem:UnitPrice";
   "tem:VariantTitle"; "/tem:VariantTitle"; "/tem:Item"].

(** [tagScan] piece by piece: an embedded text met outside markup has no
    tag. *)
Fixpoint tagPieces (st : option string) (ps : list piece) : option string * list string :=
  match ps with
  | [] => (st, [])
  | Lit s :: ps' =>
      let '(st1, out1) := tagScan st s in
      let '(st2, out2) := tagPieces st1 ps' in
      (st2, out1 ++ out2)
  | Txt t :: ps' =>
      match st with
      | None => tagPieces None ps'
      | Some _ =>
          let '(st1, out1) := tagScan st t in
          let '(st2, out2) := tagPieces st1 ps' in
          (st2, out1 ++ out2)
      end
  end.

(** The tags of the template before and after the item blocks; they do
    not depend on the order. *)
Definition headTags : list string :=
  Eval vm_compute in tags (envelopeHead sampleERPOrder).

Definition tailTags : list string :=
  Eval vm_compute in tags (envelopeTail sampleERPOrder).

(** * Properties *)

(** ** Formatting and escaping on concrete values *)

Example Sprintf_d_12345 : Sprintf_d 12345 = "12345".
Proof. reflexivity. Qed.

Example Sprintf_d_zero : Sprintf_d 0 = "0".
Proof. reflexivity. Qed.

Example Sprintf_d_negative : Sprintf_d (-42) = "-42".
Proof. reflexivity. Qed.

Example xmlEscape_sample :
  xmlEscape ("a<b & " +:+ dq +:+ "c" +:+ dq +:+ " > 'd'")
  = "a&lt;b &amp; &#34;c&#34; &gt; &#39;d&#39;".
Proof. reflexivity. Qed.

(** ** The line-item loop *)

Section ItemLoop.

Local Open Scope nat_scope.

Lemma set_index_in_range {A : Type} (items : list A) (i : nat) (v : A) :
  i < length items -> set_index items i v = Some (<[i:=v]> items).
Proof. intros Hi. unfold set_index. by rewrite decide_True. Qed.

Lemma set_index_out_of_range {A : Type} (items : list A) (i : nat) (v : A) :
  length items <= i -> set_index items i v = None.
Proof. intros Hi. unfold set_index. rewrite decide_False; [done | lia]. Qed.

(** The loop never leaves the slice it was given room in: it overwrites
    the slots [i .. i + length rest) and touches nothing else. *)
Lemma transformItems_from_spec (rest : list LineItem) :
  forall (i : nat) (items : list ERPItem),
    i + length rest <= length items ->
    transformItems_from i rest items
    = Some (take i items ++ map transformItem rest ++ drop (i + length rest) items).
Proof.
  induction rest as [|item rest IH]; intros i items Hlen; simpl in *.
  - by rewrite Nat.add_0_r, take_drop.
  - rewrite set_index_in_range by lia. simpl.
    rewrite IH by (rewrite length_insert; lia).
    f_equal.
    rewrite (take_S_r _ i (transformItem item))
      by (apply list_lookup_insert_eq; lia).
    rewrite take_insert_ge by lia.
    rewrite drop_insert_lt by lia.
    rewrite <- app_assoc. simpl.
    by rewrite Nat.add_succ_r.
Qed.

Lemma transformItems_eq (lineItems : list LineItem) :
  transformItems lineItems = Some (map transformItem lineItems).
Proof.
  unfold transformItems.
  rewrite transformItems_from_spec by (rewrite length_replicate; lia).
  simpl. rewrite drop_ge by (rewrite length_replicate; lia).
  by rewrite app_nil_r.
Qed.

End ItemLoop.

Lemma transformOrder_eq (shopifyOrder : ShopifyOrder) (now : string) :
  transformOrder shopifyOrder now = Some (transformedOrder shopifyOrder now).
Proof. unfold transformOrder. by rewrite transformItems_eq. Qed.

(** ** String append *)

Lemma append_nil_l (a : string) : "" +:+ a = a.
Proof. reflexivity. Qed.

Lemma append_cons (x : ascii) (a b : string) : String x a +:+ b = String x (a +:+ b).
Proof. reflexivity. Qed.

Lemma append_assoc (a b c : string) : (a +:+ b) +:+ c = a +:+ (b +:+ c).
Proof.
  induction a as [|x a IH]; [done|].
  by rewrite !append_cons, IH.
Qed.

Lemma append_nil_r (a : string) : a +:+ "" = a.
Proof.
  induction a as [|x a IH]; [done|].
  by rewrite append_cons, IH.
Qed.

(** The item loop of the encoder appends the blocks in list order. *)
Lemma fold_left_itemBlock (items : list ERPItem) :
  forall acc : string,
    fold_left (fun acc item => acc +:+ itemBlock item) items acc
    = acc +:+ itemBlocks items.
Proof.
  induction items as [|item items IH]; intros acc; cbn [fold_left itemBlocks].
  - by rewrite append_nil_r.
  - by rewrite IH, append_assoc.
Qed.

Lemma createSOAPEnvelope_eq (erpOrder : ERPOrder) :
  createSOAPEnvelope erpOrder
  = envelopeHead erpOrder +:+ itemBlocks (Items erpOrder) +:+ envelopeTail erpOrder.
Proof.
  unfold createSOAPEnvelope. by rewrite fold_left_itemBlock, append_assoc.
Qed.

Lemma envelopeHead_transformedOrder (o : ShopifyOrder) (items : list LineItem)
    (now now' : string) :
  envelopeHead (transformedOrder (withLineItems o items) now)
  = envelopeHead (transformedOrder o now').
Proof. reflexivity. Qed.

(** ** OrderMapper *)

(** C8.  [transformOrder] returns a record for every inbound order (the
    indexed writes of its loop are always in range, so it never panics);
    every string field it copies is the inbound string itself, so an
    absent (empty) inbound string gives an empty outbound string; and the
    all-absent order maps to the record shown, whose only non-empty fields
    are the two formatted integers, the three display names (the single
    separator) and the time stamp. *)
Theorem transformOrder_total (o : ShopifyOrder) (now : string) :
  (exists e : ERPOrder,
      transformOrder o now = Some e
      /\ CustomerEmail e = Shopify_Email o
      /\ CustomerPhone e = Customer_Phone (Shopify_Customer o)
      /\ OrderDate e = Shopify_CreatedAt o
      /\ TotalAmount e = Shopify_TotalPrice o
      /\ SubtotalAmount e = Shopify_SubtotalPrice o
      /\ TaxAmount e = Shopify_TotalTax o
      /\ Currency e = Shopify_Currency o
      /\ PaymentStatus e = Shopify_FinancialStatus o
      /\ FulfillmentStatus e = Shopify_FulfillmentStatus o
      /\ ShippingAddress e = transformAddress (Shopify_ShippingAddress o)
      /\ BillingAddress e = transformAddress (Shopify_BillingAddress o)
      /\ length (Items e) = length (Shopify_LineItems o))
  /\ (forall a : Address,
        Company (transformAddress a) = Address_Company a
        /\ AddressLine1 (transformAddress a) = Address_Address1 a
        /\ AddressLine2 (transformAddress a) = Address_Address2 a
        /\ City (transformAddress a) = Address_City a
        /\ State (transformAddress a) = Address_Province a
        /\ PostalCode (transformAddress a) = Address_Zip a
        /\ Country (transformAddress a) = Address_Country a
        /\ Phone (transformAddress a) = Address_Phone a)
  /\ (forall item : LineItem,
        SKU (transformItem item) = LineItem_SKU item
        /\ ProductName (transformItem item) = LineItem_Title item
        /\ UnitPrice (transformItem item) = LineItem_Price item
        /\ VariantTitle (transformItem item) = LineItem_VariantTitle item)
  /\ transformOrder zeroShopifyOrder now
     = Some {| OrderID := "0"; OrderNumber := "0";
               CustomerEmail := ""; CustomerName := " "; CustomerPhone := "";
               OrderDate := ""; TotalAmount := ""; SubtotalAmount := "";
               TaxAmount := ""; Currency := ""; PaymentStatus := "";
               FulfillmentStatus := ""; Items := [];
               ShippingAddress := mkERPAddress " " "" "" "" "" "" "" "" "";
               BillingAddress := mkERPAddress " " "" "" "" "" "" "" "" "";
               Timestamp := now |}.
Proof.
  split; [|split; [|split]].
  - exists (transformedOrder o now). rewrite transformOrder_eq. simpl.
    rewrite length_map. tauto.
  - intros a. simpl. tauto.
  - intros item. simpl. tauto.
  - reflexivity.
Qed.

(** C7.  The three display names are first name, one space, last name,
    with nothing trimmed; with an empty part the space stays. *)
Theorem display_names (o : ShopifyOrder) (now : string) :
  (exists e : ERPOrder,
      transformOrder o now = Some e
      /\ CustomerName e
         = Customer_FirstName (Shopify_Customer o) +:+ " "
           +:+ Customer_LastName (Shopify_Customer o)
      /\ Name (ShippingAddress e)
         = Address_FirstName (Shopify_ShippingAddress o) +:+ " "
           +:+ Address_LastName (Shopify_ShippingAddress o)
      /\ Name (BillingAddress e)
         = Address_FirstName (Shopify_BillingAddress o) +:+ " "
           +:+ Address_LastName (Shopify_BillingAddress o))
  /\ (forall first last : string,
        Sprintf_s_s first "" = first +:+ " "
        /\ Sprintf_s_s "" last = String " " last
        /\ Sprintf_s_s "" "" = " "
        /\ String.length (Sprintf_s_s first last)
           = S (String.length first + String.length last)).
Proof.
  split.
  - exists (transformedOrder o now). by rewrite transformOrder_eq.
  - intros first last. repeat split.
    unfold Sprintf_s_s. induction first as [|c first IH]; simpl; [done|].
    by rewrite IH.
Qed.

(** C9.  The money fields are the inbound strings, renamed and otherwise
    untouched; every outbound item carries the price string and the
    integer quantity of the inbound item at the same index. *)
Theorem money_fields_pass_through (o : ShopifyOrder) (now : string) :
  exists e : ERPOrder,
    transformOrder o now = Some e
    /\ TotalAmount e = Shopify_TotalPrice o
    /\ SubtotalAmount e = Shopify_SubtotalPrice o
    /\ TaxAmount e = Shopify_TotalTax o
    /\ length (Items e) = length (Shopify_LineItems o)
    /\ (forall i : nat,
          UnitPrice <$> (Items e !! i) = LineItem_Price <$> (Shopify_LineItems o !! i))
    /\ (forall i : nat,
          Quantity <$> (Items e !! i) = LineItem_Quantity <$> (Shopify_LineItems o !! i)).
Proof.
  exists (transformedOrder o now). rewrite transformOrder_eq. simpl.
  rewrite length_map. repeat split; try done.
  - intros i. rewrite list_lookup_fmap. by destruct (_ !! i).
  - intros i. rewrite list_lookup_fmap. by destruct (_ !! i).
Qed.

(** C10.  [OrderDate] is the inbound [created_at] string and does not
    depend on the clock; [Timestamp] is the clock reading and does not
    depend on the order.  They are two fields: their values differ as soon
    as the clock reading differs from [created_at]. *)
Theorem order_date_is_created_at (o : ShopifyOrder) (now : string) :
  (exists e : ERPOrder,
      transformOrder o now = Some e
      /\ OrderDate e = Shopify_CreatedAt o
      /\ Timestamp e = now)
  /\ (exists e : ERPOrder,
        transformOrder (withCreatedAt zeroShopifyOrder "2024-01-15T10:30:00Z")
                       "2026-03-01T08:00:00Z" = Some e
        /\ OrderDate e = "2024-01-15T10:30:00Z"
        /\ Timestamp e = "2026-03-01T08:00:00Z"
        /\ OrderDate e <> Timestamp e).
Proof.
  split.
  - exists (transformedOrder o now). by rewrite transformOrder_eq.
  - eexists. split; [reflexivity|]. simpl. repeat split. discriminate.
Qed.

(** C4.  For one inbound order, the envelopes obtained at two clock
    readings share everything before and after the escaped time stamp, and
    the two outbound orders differ in the [Timestamp] field only. *)
Theorem envelope_deterministic_up_to_timestamp (o : ShopifyOrder) :
  exists pre suf : string,
    forall now1 now2 : string,
      exists e1 e2 : ERPOrder,
        transformOrder o now1 = Some e1
        /\ transformOrder o now2 = Some e2
        /\ withTimestamp e1 now2 = e2
        /\ createSOAPEnvelope e1 = pre +:+ xmlEscape now1 +:+ suf
        /\ createSOAPEnvelope e2 = pre +:+ xmlEscape now2 +:+ suf.
Proof.
  exists (envelopeHead (transformedOrder o "")
          +:+ itemBlocks (map transformItem (Shopify_LineItems o))
          +:+ "
        </tem:Items>
        <tem:Timestamp>"),
         "</tem:Timestamp>
      </tem:order>
    </tem:CreateOrder>
  </soap:Body>
</soap:Envelope>".
  intros now1 now2.
  exists (transformedOrder o now1), (transformedOrder o now2).
  rewrite !transformOrder_eq, !createSOAPEnvelope_eq.
  repeat split; unfold envelopeTail;
    cbn [Items Timestamp transformedOrder]; by rewrite !append_assoc.
Qed.

(** ** EnvelopeEncoder: escaping and the reading side *)

Example unescape_examples :
  unescape "a&lt;b &amp; &#34;c&quot; &gt; &#39;d&apos; &#65;&#x41;&#xe9;&#8364;&#x1F600;"
  = Some ("a<b & " +:+ dq +:+ "c" +:+ dq +:+ " > 'd' AA"
          +:+ String "195" (String "169" "")
          +:+ String "226" (String "130" (String "172" ""))
          +:+ String "240" (String "159" (String "152" (String "128" ""))))
  /\ unescape (String "a" (String cr (String lf (String "b" (String cr "c")))))
     = Some (String "a" (String lf (String "b" (String lf "c"))))
  /\ unescape "&#13;" = Some (String cr "")
  /\ unescape "a&b" = None
  /\ unescape "&bogus;" = None
  /\ unescape "&#1;" = None
  /\ unescape "&#0;" = None
  /\ unescape "&#xD800;" = None
  /\ unescape "&#xFFFE;" = None
  /\ unescape "&#x110000;" = None
  /\ unescape "a]]>b" = None
  /\ unescape "a]>b" = Some "a]>b"
  /\ unescape (String "001" "") = None
  /\ unescape (String "255" "") = None
  /\ unescape (String "195" "") = None
  /\ unescape (String "237" (String "160" (String "128" ""))) = None
  /\ unescape (String "239" (String "191" (String "190" ""))) = None.
Proof. repeat split; vm_compute; reflexivity. Qed.

(** *** The left inverse *)

Lemma unquote_escapeByte (c : ascii) (t : string) :
  unquoteFrom None (escapeByte c +:+ t) = String c <$> unquoteFrom None t.
Proof.
  unfold escapeByte.
  destruct (Ascii.eqb_spec c "&") as [->|Hamp]; [done|].
  destruct (Ascii.eqb_spec c "'") as [->|Hapos]; [done|].
  destruct (Ascii.eqb_spec c "<") as [->|Hlt]; [done|].
  destruct (Ascii.eqb_spec c ">") as [->|Hgt]; [done|].
  destruct (Ascii.eqb_spec c "034") as [->|Hquot]; [done|].
  rewrite append_cons, append_nil_l. cbn [unquoteFrom].
  by rewrite (proj2 (Ascii.eqb_neq _ _) Hamp), (proj2 (Ascii.eqb_neq _ _) Hlt).
Qed.

Lemma unquote_xmlEscape (s : string) : unquote (xmlEscape s) = Some s.
Proof.
  unfold unquote, xmlEscape.
  induction s as [|c s IH]; [done|].
  cbn [html_EscapeString]. by rewrite unquote_escapeByte, IH.
Qed.

(** *** Characters, line ends and references of an escaped string *)

Lemma utf8Run_app (a b : string) : forall st,
  utf8Run st (a +:+ b) = (st' ← utf8Run st a; utf8Run st' b).
Proof.
  induction a as [|c a IH]; intros st.
  - by rewrite append_nil_l.
  - rewrite append_cons. cbn [utf8Run].
    destruct (utf8Step st c) as [st'|]; [|done]. exact (IH st').
Qed.

Lemma utf8Run_escapeByte (c : ascii) (st : utf8State) :
  utf8Run st (escapeByte c) = utf8Run st (String c "").
Proof.
  unfold escapeByte.
  destruct (Ascii.eqb_spec c "&") as [->|_]; [by destruct st|].
  destruct (Ascii.eqb_spec c "'") as [->|_]; [by destruct st|].
  destruct (Ascii.eqb_spec c "<") as [->|_]; [by destruct st|].
  destruct (Ascii.eqb_spec c ">") as [->|_]; [by destruct st|].
  destruct (Ascii.eqb_spec c "034") as [->|_]; [by destruct st|].
  done.
Qed.

Lemma utf8Run_xmlEscape (s : string) : forall st,
  utf8Run st (xmlEscape s) = utf8Run st s.
Proof.
  induction s as [|c s IH]; intros st; [done|].
  change (xmlEscape (String c s)) with (escapeByte c +:+ xmlEscape s).
  rewrite utf8Run_app, utf8Run_escapeByte. cbn [utf8Run].
  destruct (utf8Step st c) as [st'|]; [|done]. exact (IH st').
Qed.

Lemma xmlChars_xmlEscape (s : string) : xmlChars (xmlEscape s) = xmlChars s.
Proof. unfold xmlChars. by rewrite utf8Run_xmlEscape. Qed.

Lemma normalizeEOL_xmlEscape (s : string) : forall afterCR,
  normalizeEOL afterCR (xmlEscape s) = xmlEscape (normalizeEOL afterCR s).
Proof.
  induction s as [|c s IH]; intros afterCR; [done|].
  change (xmlEscape (String c s)) with (escapeByte c +:+ xmlEscape s).
  cbn [normalizeEOL].
  destruct (Ascii.eqb_spec c cr) as [->|Hcr].
  { change (escapeByte cr) with (String cr ""). rewrite append_cons, append_nil_l.
    cbn [normalizeEOL]. change (Ascii.eqb cr cr) with true. cbn match.
    change (xmlEscape (String lf (normalizeEOL true s)))
      with (String lf (xmlEscape (normalizeEOL true s))).
    by rewrite IH. }
  destruct (Ascii.eqb_spec c lf) as [->|Hlf].
  { change (escapeByte lf) with (String lf ""). rewrite append_cons, append_nil_l.
    cbn [normalizeEOL]. change (Ascii.eqb lf cr) with false.
    change (Ascii.eqb lf lf) with true. cbn match.
    destruct afterCR; cbn [andb].
    - apply IH.
    - change (xmlEscape (String lf (normalizeEOL false s)))
        with (String lf (xmlEscape (normalizeEOL false s))).
      by rewrite IH. }
  cbn [andb].
  change (xmlEscape (String c (normalizeEOL false s)))
    with (escapeByte c +:+ xmlEscape (normalizeEOL false s)).
  rewrite <- IH. clear IH. generalize (xmlEscape s) as t. intros t.
  apply Ascii.eqb_neq in Hcr, Hlf.
  unfold escapeByte.
  destruct (Ascii.eqb_spec c "&") as [->|_]; [done|].
  destruct (Ascii.eqb_spec c "'") as [->|_]; [done|].
  destruct (Ascii.eqb_spec c "<") as [->|_]; [done|].
  destruct (Ascii.eqb_spec c ">") as [->|_]; [done|].
  destruct (Ascii.eqb_spec c "034") as [->|_]; [done|].
  rewrite append_cons, append_nil_l. cbn [normalizeEOL].
  by rewrite Hcr, Hlf.
Qed.

Lemma expandRefs_escapeByte (c : ascii) (brackets : nat) (t : string) :
  exists brackets' : nat,
    expandRefs None brackets (escapeByte c +:+ t)
    = String c <$> expandRefs None brackets' t.
Proof.
  unfold escapeByte.
  destruct (Ascii.eqb_spec c "&") as [->|Hamp]; [by exists 0%nat|].
  destruct (Ascii.eqb_spec c "'") as [->|_]; [by exists 0%nat|].
  destruct (Ascii.eqb_spec c "<") as [->|Hlt]; [by exists 0%nat|].
  destruct (Ascii.eqb_spec c ">") as [->|Hgt]; [by exists 0%nat|].
  destruct (Ascii.eqb_spec c "034") as [->|_]; [by exists 0%nat|].
  rewrite append_cons, append_nil_l. cbn [expandRefs].
  apply Ascii.eqb_neq in Hamp, Hlt, Hgt. rewrite Hamp, Hlt, Hgt. cbn [andb].
  by eexists.
Qed.

Lemma expandRefs_xmlEscape (s : string) : forall brackets,
  expandRefs None brackets (xmlEscape s) = Some s.
Proof.
  induction s as [|c s IH]; intros brackets; [done|].
  change (xmlEscape (String c s)) with (escapeByte c +:+ xmlEscape s).
  destruct (expandRefs_escapeByte c brackets (xmlEscape s)) as [brackets' ->].
  by rewrite IH.
Qed.

Lemma unescape_xmlEscape (s : string) :
  unescape (xmlEscape s) = if xmlChars s then Some (normalizeEOL false s) else None.
Proof.
  unfold unescape.
  by rewrite xmlChars_xmlEscape, normalizeEOL_xmlEscape, expandRefs_xmlEscape.
Qed.

Lemma noCR_normalizeEOL (s : string) :
  noCR s = true -> normalizeEOL false s = s.
Proof.
  induction s as [|c s IH]; [done|]. cbn [noCR normalizeEOL].
  intros H. apply andb_true_iff in H as [Hc Hs]. apply negb_true_iff in Hc.
  rewrite Hc, andb_false_r. by rewrite IH.
Qed.

Lemma normalizeEOL_noCR (s : string) : forall afterCR,
  noCR (normalizeEOL afterCR s) = true.
Proof.
  induction s as [|c s IH]; intros afterCR; [done|]. cbn [normalizeEOL].
  destruct (Ascii.eqb c cr) eqn:Hcr.
  - cbn [noCR]. change (Ascii.eqb lf cr) with false. exact (IH true).
  - destruct (Ascii.eqb c lf && afterCR); [exact (IH false)|].
    cbn [noCR]. rewrite Hcr. exact (IH false).
Qed.

Lemma unescape_xmlEscape_iff (s : string) :
  unescape (xmlEscape s) = Some s <-> xmlChars s = true /\ noCR s = true.
Proof.
  rewrite unescape_xmlEscape. split.
  - destruct (xmlChars s); [|done]. intros H. injection H as H.
    split; [done|]. rewrite <- H. apply normalizeEOL_noCR.
  - intros [-> H]. by rewrite (noCR_normalizeEOL s H).
Qed.

Lemma noLt_app (a b : string) :
  noLt a = true -> noLt b = true -> noLt (a +:+ b) = true.
Proof.
  induction a as [|c a IH]; intros Ha Hb; [done|].
  rewrite append_cons. cbn [noLt] in *.
  apply andb_true_iff in Ha as [-> Ha]. by rewrite IH.
Qed.

Lemma noLt_escapeByte (c : ascii) : noLt (escapeByte c) = true.
Proof.
  unfold escapeByte.
  destruct (Ascii.eqb c "&"); [done|].
  destruct (Ascii.eqb c "'"); [done|].
  destruct (Ascii.eqb c "<") eqn:Hlt; [done|].
  destruct (Ascii.eqb c ">"); [done|].
  destruct (Ascii.eqb c "034"); [done|].
  cbn [noLt]. by rewrite Hlt.
Qed.

Lemma noLt_xmlEscape (s : string) : noLt (xmlEscape s) = true.
Proof.
  unfold xmlEscape. induction s as [|c s IH]; [done|].
  cbn [html_EscapeString]. by apply noLt_app; [apply noLt_escapeByte|].
Qed.

Lemma plain_uint (d : Decimal.uint) : plain (NilEmpty.string_of_uint d) = true.
Proof. induction d; cbn [NilEmpty.string_of_uint plain]; by rewrite ?IHd. Qed.

Lemma plain_Sprintf_d (n : Z) : plain (Sprintf_d n) = true.
Proof.
  unfold Sprintf_d, NilZero.string_of_int, NilZero.string_of_uint.
  destruct (Z.to_int n) as [d|d]; destruct d; try done;
    cbn [NilEmpty.string_of_uint plain]; by rewrite plain_uint.
Qed.

Lemma plain_noLt (s : string) : plain s = true -> noLt s = true.
Proof.
  induction s as [|c s IH]; [done|]. cbn [plain noLt].
  intros H. apply andb_true_iff in H as [H Hs].
  apply andb_true_iff in H as [-> _]. by rewrite IH.
Qed.

Lemma noLt_Sprintf_d (n : Z) : noLt (Sprintf_d n) = true.
Proof. apply plain_noLt, plain_Sprintf_d. Qed.

Lemma unquote_plain (s : string) : plain s = true -> unquote s = Some s.
Proof.
  unfold unquote. induction s as [|c s IH]; [done|]. cbn [plain unquoteFrom].
  intros H. apply andb_true_iff in H as [H Hs].
  apply andb_true_iff in H as [Hlt Hamp].
  apply negb_true_iff in Hlt, Hamp. by rewrite Hlt, Hamp, IH.
Qed.

Lemma unquote_embeddedText (v : scalar) :
  unquote (embeddedText v) = Some (originalText v).
Proof.
  destruct v as [s|n]; cbn [embeddedText originalText].
  - apply unquote_xmlEscape.
  - apply unquote_plain, plain_Sprintf_d.
Qed.

(** *** Texts made of XML characters, without #xD *)

Lemma xmlChars_run (s : string) :
  xmlChars s = true <-> utf8Run AtChar s = Some AtChar.
Proof.
  unfold xmlChars. destruct (utf8Run AtChar s) as [[]|]; split; done.
Qed.

Lemma noCR_app (a b : string) : noCR (a +:+ b) = noCR a && noCR b.
Proof.
  induction a as [|c a IH]; [by rewrite append_nil_l|].
  rewrite append_cons. cbn [noCR]. by rewrite IH, andb_assoc.
Qed.

Lemma noCR_escapeByte (c : ascii) : noCR (escapeByte c) = noCR (String c "").
Proof.
  unfold escapeByte.
  destruct (Ascii.eqb_spec c "&") as [->|_]; [done|].
  destruct (Ascii.eqb_spec c "'") as [->|_]; [done|].
  destruct (Ascii.eqb_spec c "<") as [->|_]; [done|].
  destruct (Ascii.eqb_spec c ">") as [->|_]; [done|].
  destruct (Ascii.eqb_spec c "034") as [->|_]; [done|].
  done.
Qed.

Lemma noCR_xmlEscape (s : string) : noCR (xmlEscape s) = noCR s.
Proof.
  induction s as [|c s IH]; [done|].
  change (xmlEscape (String c s)) with (escapeByte c +:+ xmlEscape s).
  rewrite noCR_app, noCR_escapeByte, IH. cbn [noCR]. by rewrite andb_true_r.
Qed.

Lemma cleanText_app (a b : string) :
  cleanText a = true -> cleanText b = true -> cleanText (a +:+ b) = true.
Proof.
  unfold cleanText. intros Ha Hb.
  apply andb_true_iff in Ha as [Ha1 Ha2]. apply andb_true_iff in Hb as [Hb1 Hb2].
  apply xmlChars_run in Ha1, Hb1.
  apply andb_true_iff. split.
  - apply xmlChars_run. rewrite utf8Run_app, Ha1. exact Hb1.
  - by rewrite noCR_app, Ha2, Hb2.
Qed.

Lemma cleanText_xmlEscape (s : string) : cleanText (xmlEscape s) = cleanText s.
Proof. unfold cleanText. by rewrite xmlChars_xmlEscape, noCR_xmlEscape. Qed.

Lemma cleanText_uint (d : Decimal.uint) :
  cleanText (NilEmpty.string_of_uint d) = true.
Proof.
  induction d; cbn [NilEmpty.string_of_uint]; [done|..];
    match goal with
    | |- cleanText (String ?c ?r) = true =>
        change (String c r) with (String c "" +:+ r)
    end;
    by apply cleanText_app.
Qed.

Lemma cleanText_Sprintf_d (n : Z) : cleanText (Sprintf_d n) = true.
Proof.
  unfold Sprintf_d, NilZero.string_of_int, NilZero.string_of_uint.
  destruct (Z.to_int n) as [d|d]; destruct d; try done;
    cbn [NilEmpty.string_of_uint];
    match goal with
    | |- cleanText (String ?c ?r) = true =>
        change (String c r) with (String c "" +:+ r)
    end;
    apply cleanText_app; try done;
    try apply cleanText_uint;
    match goal with
    | |- cleanText (String ?c ?r) = true =>
        change (String c r) with (String c "" +:+ r)
    end;
    apply cleanText_app; try done; apply cleanText_uint.
Qed.

Lemma cleanText_originalText (v : scalar) :
  cleanText (originalText v) = true -> cleanText (embeddedText v) = true.
Proof.
  destruct v as [s|n]; cbn [embeddedText originalText]; [|done].
  by rewrite cleanText_xmlEscape.
Qed.

Lemma piecesClean_correct (ps : list piece) :
  piecesClean ps = true -> cleanText (render ps) = true.
Proof.
  induction ps as [|[s|t] ps IH]; cbn [piecesClean render]; [done|..];
    intros H; apply andb_true_iff in H as [H1 H2]; by apply cleanText_app; [|apply IH].
Qed.

Lemma expandRefs_uint (d : Decimal.uint) : forall brackets,
  expandRefs None brackets (NilEmpty.string_of_uint d)
  = Some (NilEmpty.string_of_uint d).
Proof.
  induction d; intros brackets; cbn [NilEmpty.string_of_uint]; [done|..];
    cbn [expandRefs Ascii.eqb Bool.eqb andb]; by rewrite IHd.
Qed.

Lemma expandRefs_Sprintf_d (n : Z) (brackets : nat) :
  expandRefs None brackets (Sprintf_d n) = Some (Sprintf_d n).
Proof.
  unfold Sprintf_d, NilZero.string_of_int, NilZero.string_of_uint.
  destruct (Z.to_int n) as [d|d]; destruct d; try done;
    cbn [NilEmpty.string_of_uint expandRefs Ascii.eqb Bool.eqb andb];
    rewrite ?expandRefs_uint; try done;
    cbn [expandRefs Ascii.eqb Bool.eqb andb]; by rewrite expandRefs_uint.
Qed.

Lemma expandRefs_embeddedText (v : scalar) (brackets : nat) :
  expandRefs None brackets (embeddedText v) = Some (originalText v).
Proof.
  destruct v as [s|n]; cbn [embeddedText originalText].
  - apply expandRefs_xmlEscape.
  - apply expandRefs_Sprintf_d.
Qed.

(** *** Scanning a concatenation *)

Lemma scan_app (a b : string) : forall st,
  scan st (a +:+ b)
  = let '(st1, out1) := scan st a in
    let '(st2, out2) := scan st1 b in
    (st2, out1 ++ out2).
Proof.
  induction a as [|c a IH]; intros st.
  - rewrite append_nil_l. cbn [scan]. by destruct (scan st b).
  - rewrite append_cons. cbn [scan].
    destruct (scanStep st c) as [st1 out1]. rewrite IH.
    destruct (scan st1 a) as [st2 out2], (scan st2 b) as [st3 out3].
    by rewrite app_assoc.
Qed.

Lemma scan_text (t : string) : forall opened txt,
  noLt t = true -> scan (InText opened txt) t = (InText opened (txt +:+ t), []).
Proof.
  induction t as [|c t IH]; intros opened txt Ht.
  - by rewrite append_nil_r.
  - cbn [noLt] in Ht. apply andb_true_iff in Ht as [Hc Ht].
    cbn [scan scanStep]. apply negb_true_iff in Hc. rewrite Hc.
    rewrite IH by done. rewrite append_assoc. reflexivity.
Qed.

Lemma scanPieces_correct (ps : list piece) : forall st,
  textsOk ps = true -> scan st (render ps) = scanPieces st ps.
Proof.
  induction ps as [|[s|t] ps IH]; intros st Hok;
    cbn [render scanPieces textsOk] in *.
  - done.
  - rewrite scan_app. destruct (scan st s) as [st1 out1]. by rewrite IH.
  - apply andb_true_iff in Hok as [Ht Hok].
    rewrite scan_app. destruct st as [opened txt|opened txt tag].
    + rewrite scan_text by done. rewrite IH by done.
      by destruct (scanPieces _ ps).
    + destruct (scan _ t) as [st1 out1]. by rewrite IH.
Qed.

(** Cut a right-nested concatenation into pieces: variables are embedded
    texts, everything else is template. *)
Ltac reify_piece a :=
  match a with
  | _ => let _ := match goal with _ => is_var a end in constr:(Txt a)
  | _ => constr:(Lit a)
  end.

Ltac reify_pieces t :=
  lazymatch t with
  | String.append ?a ?b =>
      let ra := reify_piece a in
      let rb := reify_pieces b in
      constr:(ra :: rb)
  | ?a => let ra := reify_piece a in constr:([ra])
  end.

(** Replace every embedded text by a variable known to hold no ['<']. *)
Ltac abstract_texts :=
  repeat match goal with
         | |- context [xmlEscape ?v] =>
             let x := fresh "x" in
             let Hx := fresh "Hx" in
             pose proof (noLt_xmlEscape v) as Hx;
             generalize dependent (xmlEscape v); intros x Hx
         | |- context [Sprintf_d ?n] =>
             let x := fresh "x" in
             let Hx := fresh "Hx" in
             pose proof (noLt_Sprintf_d n) as Hx;
             generalize dependent (Sprintf_d n); intros x Hx
         end.

Ltac scan_by_pieces :=
  abstract_texts;
  rewrite ?append_assoc;
  lazymatch goal with
  | |- scan ?st ?t = _ =>
      let ps := reify_pieces t in
      change t with (render ps);
      rewrite (scanPieces_correct ps st);
      [ vm_compute; reflexivity
      | cbn [textsOk];
        repeat match goal with H : noLt _ = true |- _ => rewrite H; clear H end;
        reflexivity ]
  end.

Lemma scan_envelopeHead (e : ERPOrder) :
  scan (InText None "") (envelopeHead e)
  = (InText (Some "tem:Items") "", map embed (scalarsOfHead e)).
Proof.
  unfold envelopeHead, scalarsOfHead, scalarsOfAddress, embed.
  cbn [map app fst snd embeddedText].
  scan_by_pieces.
Qed.

Lemma scan_itemBlock (item : ERPItem) (opened : option string) (txt : string) :
  scan (InText opened txt) (itemBlock item)
  = (InText None "", map embed (scalarsOfItem item)).
Proof.
  unfold itemBlock, scalarsOfItem, embed. cbn [map fst snd embeddedText].
  scan_by_pieces.
Qed.

Lemma scan_itemBlocks (items : list ERPItem) : forall opened txt,
  scan (InText opened txt) (itemBlocks items)
  = (match items with [] => InText opened txt | _ => InText None "" end,
     map embed (flat_map scalarsOfItem items)).
Proof.
  induction items as [|item items IH]; intros opened txt; [done|].
  cbn [itemBlocks flat_map]. rewrite scan_app, scan_itemBlock, IH, map_app.
  by destruct items.
Qed.

Lemma scan_envelopeTail_no_items (e : ERPOrder) :
  scan (InText (Some "tem:Items") "") (envelopeTail e)
  = (InText None "",
     [("tem:Items", emptyItemsText); embed ("tem:Timestamp", TextValue (Timestamp e))]).
Proof.
  unfold envelopeTail, embed. cbn [fst snd embeddedText].
  scan_by_pieces.
Qed.

Lemma scan_envelopeTail_after_items (e : ERPOrder) :
  scan (InText None "") (envelopeTail e)
  = (InText None "", [embed ("tem:Timestamp", TextValue (Timestamp e))]).
Proof.
  unfold envelopeTail, embed. cbn [fst snd embeddedText].
  scan_by_pieces.
Qed.

Lemma leaves_createSOAPEnvelope (e : ERPOrder) :
  leaves (createSOAPEnvelope e) = embeddedLeaves e.
Proof.
  unfold leaves, embeddedLeaves.
  rewrite createSOAPEnvelope_eq, scan_app, scan_envelopeHead, scan_app, scan_itemBlocks.
  destruct (Items e) as [|item items].
  - by rewrite scan_envelopeTail_no_items.
  - by rewrite scan_envelopeTail_after_items.
Qed.

Lemma unquotedLeaves_createSOAPEnvelope (e : ERPOrder) :
  unquotedLeaves (createSOAPEnvelope e) = decodedFields e.
Proof.
  assert (Hmap : forall fs : list (string * scalar),
             map (fun leaf => (fst leaf, unquote (snd leaf))) (map embed fs)
             = map decoded fs).
  { intros fs. rewrite map_map. apply map_ext. intros [name v].
    unfold embed, decoded. cbn [fst snd]. by rewrite unquote_embeddedText. }
  unfold unquotedLeaves, decodedFields. rewrite leaves_createSOAPEnvelope.
  unfold embeddedLeaves. rewrite !map_app, Hmap.
  destruct (Items e) as [|item items].
  - cbn [map]. unfold embed, decoded. cbn [fst snd].
    by rewrite unquote_embeddedText.
  - rewrite Hmap. cbn [map]. unfold embed, decoded. cbn [fst snd].
    by rewrite unquote_embeddedText.
Qed.

(** *** The envelope of an order with clean texts *)

(** Replace every embedded text by a variable known to be clean. *)
Ltac abstract_clean_texts :=
  repeat match goal with
         | H : cleanText ?v = true |- context [xmlEscape ?v] =>
             rewrite <- (cleanText_xmlEscape v) in H;
             generalize dependent (xmlEscape v); intros
         | |- context [Sprintf_d ?n] =>
             let Hx := fresh "Hx" in
             pose proof (cleanText_Sprintf_d n) as Hx;
             generalize dependent (Sprintf_d n); intros
         end.

Ltac split_clean H :=
  repeat (let Hc := fresh "Hc" in apply andb_true_iff in H as [Hc H]).

Ltac clean_by_pieces :=
  abstract_clean_texts;
  rewrite ?append_assoc;
  lazymatch goal with
  | |- cleanText ?t = true =>
      let ps := reify_pieces t in
      change t with (render ps);
      apply piecesClean_correct; cbn [piecesClean];
      repeat match goal with H : cleanText _ = true |- _ => rewrite H; clear H end;
      vm_compute; reflexivity
  end.

Lemma cleanText_envelopeHead (e : ERPOrder) :
  forallb (fun f => cleanText (originalText (snd f))) (scalarsOfHead e) = true ->
  cleanText (envelopeHead e) = true.
Proof.
  unfold envelopeHead, scalarsOfHead, scalarsOfAddress.
  cbn [forallb app snd originalText]. intros H. split_clean H. clear H.
  clean_by_pieces.
Qed.

Lemma cleanText_itemBlock (item : ERPItem) :
  forallb (fun f => cleanText (originalText (snd f))) (scalarsOfItem item) = true ->
  cleanText (itemBlock item) = true.
Proof.
  unfold itemBlock, scalarsOfItem.
  cbn [forallb snd originalText]. intros H. split_clean H. clear H.
  clean_by_pieces.
Qed.

Lemma cleanText_itemBlocks (items : list ERPItem) :
  forallb (fun f => cleanText (originalText (snd f))) (flat_map scalarsOfItem items) = true ->
  cleanText (itemBlocks items) = true.
Proof.
  induction items as [|item items IH]; [done|].
  cbn [flat_map itemBlocks]. rewrite forallb_app. intros H.
  apply andb_true_iff in H as [H1 H2].
  apply cleanText_app; [by apply cleanText_itemBlock | by apply IH].
Qed.

Lemma cleanText_envelopeTail (e : ERPOrder) :
  cleanText (Timestamp e) = true -> cleanText (envelopeTail e) = true.
Proof.
  unfold envelopeTail. intros H. clean_by_pieces.
Qed.

Lemma cleanText_createSOAPEnvelope (e : ERPOrder) :
  cleanOrder e = true -> cleanText (createSOAPEnvelope e) = true.
Proof.
  unfold cleanOrder, allScalars. rewrite !forallb_app. intros H.
  apply andb_true_iff in H as [Hhead H]. apply andb_true_iff in H as [Hitems Hts].
  cbn [forallb snd originalText] in Hts. apply andb_true_iff in Hts as [Hts _].
  rewrite createSOAPEnvelope_eq.
  apply cleanText_app; [by apply cleanText_envelopeHead|].
  apply cleanText_app; [by apply cleanText_itemBlocks | by apply cleanText_envelopeTail].
Qed.

Lemma fields_createSOAPEnvelope (e : ERPOrder) :
  cleanOrder e = true -> fields (createSOAPEnvelope e) = Some (originalFields e).
Proof.
  intros H. apply cleanText_createSOAPEnvelope in H.
  unfold cleanText in H. apply andb_true_iff in H as [Hchars Hcr].
  unfold fields.
  rewrite Hchars, (noCR_normalizeEOL _ Hcr), leaves_createSOAPEnvelope.
  assert (Hmap : forall fs : list (string * scalar),
             Forall2 (fun leaf y =>
                        pair (fst leaf) <$> expandRefs None 0 (snd leaf) = Some y)
                     (map embed fs) (map original fs)).
  { intros fs. induction fs as [|[name v] fs IH]; constructor; [|done].
    unfold embed, original. cbn [fst snd]. by rewrite expandRefs_embeddedText. }
  apply mapM_Some. unfold embeddedLeaves, originalFields.
  apply Forall2_app; [apply Hmap|]. apply Forall2_app.
  - destruct (Items e) as [|item items]; [by repeat constructor | apply Hmap].
  - exact (Hmap [("tem:Timestamp", TextValue (Timestamp e))]).
Qed.

(** C5.  The text of every text-only element of the envelope is
    [xmlEscape] of the field it stands for (the integer quantity is
    printed in decimal), for every order, the empty string being embedded
    as the empty string and references already present being escaped once
    more.  Un-escaping [xmlEscape s] as XML 1.0 prescribes gives [s] with
    its line ends normalised when [s] is made of XML characters, and is
    rejected otherwise; hence it gives [s] back exactly when [s] is made
    of XML characters and holds no #xD.  Read back from the envelope,
    an order all of whose texts are such yields every field, in document
    order. *)
Theorem escaping_round_trip (e : ERPOrder) :
  (forall s : string,
      unescape (xmlEscape s)
      = if xmlChars s then Some (normalizeEOL false s) else None)
  /\ (forall s : string,
        unescape (xmlEscape s) = Some s <-> xmlChars s = true /\ noCR s = true)
  /\ xmlEscape "" = ""
  /\ unescape (xmlEscape "") = Some ""
  /\ xmlEscape "a &amp; b" = "a &amp;amp; b"
  /\ unescape (xmlEscape "a &amp; b") = Some "a &amp; b"
  /\ leaves (createSOAPEnvelope e) = embeddedLeaves e
  /\ (cleanOrder e = true ->
      fields (createSOAPEnvelope e) = Some (originalFields e)).
Proof.
  split; [exact unescape_xmlEscape|].
  split; [exact unescape_xmlEscape_iff|].
  split; [reflexivity|]. split; [reflexivity|].
  split; [reflexivity|]. split; [reflexivity|].
  split; [exact (leaves_createSOAPEnvelope e) | exact (fields_createSOAPEnvelope e)].
Qed.

Lemma escaping_round_trip_witness :
  cleanOrder quotedOrder = true
  /\ fields (createSOAPEnvelope quotedOrder) = Some (originalFields quotedOrder)
  /\ originalFields quotedOrder !! 3%nat
     = Some ("tem:CustomerName",
             "Tom & Jerry <O'Neil " +:+ dq +:+ "Jr" +:+ dq +:+ ">")
  /\ leaves (createSOAPEnvelope quotedOrder) !! 3%nat
     = Some ("tem:CustomerName",
             "Tom &amp; Jerry &lt;O&#39;Neil &#34;Jr&#34;&gt;").
Proof.
  split; [reflexivity|].
  split; [exact (proj2 (proj2 (proj2 (proj2 (proj2 (proj2 (proj2
                   (escaping_round_trip quotedOrder))))))) eq_refl)|].
  split; reflexivity.
Defined.

(** The strings that do not come back: a #xD is read as #xA, and a NUL,
    another control byte or a byte that is not UTF-8 makes the reader
    reject the text.  So does an order with such a string in a field. *)
Lemma carriage_return_not_round_tripped :
  unescape (xmlEscape (String cr "")) = Some (String lf "")
  /\ unescape (xmlEscape (String "a" (String cr (String lf "b"))))
     = Some (String "a" (String lf "b"))
  /\ unescape (xmlEscape (String "000" "")) = None
  /\ unescape (xmlEscape (String "027" "")) = None
  /\ unescape (xmlEscape (String "255" "")) = None
  /\ ~ (forall s : string, unescape (xmlEscape s) = Some s)
  /\ CustomerName carriageReturnOrder = String cr "Tom Jerry"
  /\ (exists fs : list (string * string),
        fields (createSOAPEnvelope carriageReturnOrder) = Some fs
        /\ fs !! 3%nat = Some ("tem:CustomerName", String lf "Tom Jerry")
        /\ fs <> originalFields carriageReturnOrder).
Proof.
  split; [reflexivity|]. split; [reflexivity|]. split; [reflexivity|].
  split; [reflexivity|]. split; [reflexivity|].
  split; [intros H; by specialize (H (String cr ""))|].
  split; [reflexivity|].
  eexists. split; [vm_compute; reflexivity|]. split; [reflexivity|].
  vm_compute. discriminate.
Qed.

(** The concrete scenario: the mapped order, and what a reader finds in
    its envelope after the thirty scalars of the order and its addresses. *)
Example concrete_scenario :
  exists e : ERPOrder,
    transformOrder scenarioOrder "2026-03-01T08:00:00Z" = Some e
    /\ OrderID e = "12345"
    /\ OrderNumber e = "1001"
    /\ TotalAmount e = "150.00"
    /\ Items e = [mkERPItem "TEST-SKU-001" "" 2 "65.00" ""]
    /\ drop 30 <$> fields (createSOAPEnvelope e)
       = Some [("tem:SKU", "TEST-SKU-001");
               ("tem:ProductName", "");
               ("tem:Quantity", "2");
               ("tem:UnitPrice", "65.00");
               ("tem:VariantTitle", "");
               ("tem:Timestamp", "2026-03-01T08:00:00Z")].
Proof.
  eexists. split; [reflexivity|].
  split; [reflexivity|]. split; [reflexivity|]. split; [reflexivity|].
  split; [reflexivity|]. vm_compute. reflexivity.
Qed.

(** ** The item blocks of the envelope *)

Lemma tagScan_app (a b : string) : forall st,
  tagScan st (a +:+ b)
  = let '(st1, out1) := tagScan st a in
    let '(st2, out2) := tagScan st1 b in
    (st2, out1 ++ out2).
Proof.
  induction a as [|c a IH]; intros st.
  - rewrite append_nil_l. cbn [tagScan]. by destruct (tagScan st b).
  - rewrite append_cons. cbn [tagScan].
    destruct (tagStep st c) as [st1 out1]. rewrite IH.
    destruct (tagScan st1 a) as [st2 out2], (tagScan st2 b) as [st3 out3].
    by rewrite app_assoc.
Qed.

Lemma tagScan_text (t : string) : noLt t = true -> tagScan None t = (None, []).
Proof.
  induction t as [|c t IH]; intros Ht; [done|].
  cbn [noLt] in Ht. apply andb_true_iff in Ht as [Hc Ht].
  cbn [tagScan tagStep]. apply negb_true_iff in Hc. rewrite Hc.
  by rewrite IH.
Qed.

Lemma tagPieces_correct (ps : list piece) : forall st,
  textsOk ps = true -> tagScan st (render ps) = tagPieces st ps.
Proof.
  induction ps as [|[s|t] ps IH]; intros st Hok;
    cbn [render tagPieces textsOk] in *.
  - done.
  - rewrite tagScan_app. destruct (tagScan st s) as [st1 out1]. by rewrite IH.
  - apply andb_true_iff in Hok as [Ht Hok].
    rewrite tagScan_app. destruct st as [tag|].
    + destruct (tagScan _ t) as [st1 out1]. by rewrite IH.
    + rewrite tagScan_text by done. rewrite IH by done.
      by destruct (tagPieces _ ps).
Qed.

Ltac tags_by_pieces :=
  abstract_texts;
  rewrite ?append_assoc;
  lazymatch goal with
  | |- tagScan ?st ?t = _ =>
      let ps := reify_pieces t in
      change t with (render ps);
      rewrite (tagPieces_correct ps st);
      [ vm_compute; reflexivity
      | cbn [textsOk];
        repeat match goal with H : noLt _ = true |- _ => rewrite H; clear H end;
        reflexivity ]
  end.

Lemma tagScan_envelopeHead (e : ERPOrder) :
  tagScan None (envelopeHead e) = (None, headTags).
Proof. unfold envelopeHead. tags_by_pieces. Qed.

Lemma tagScan_itemBlock (item : ERPItem) :
  tagScan None (itemBlock item) = (None, itemTags).
Proof. unfold itemBlock. tags_by_pieces. Qed.

Lemma tagScan_itemBlocks (items : list ERPItem) :
  tagScan None (itemBlocks items) = (None, flat_map (fun _ => itemTags) items).
Proof.
  induction items as [|item items IH]; [done|].
  cbn [itemBlocks flat_map]. by rewrite tagScan_app, tagScan_itemBlock, IH.
Qed.

Lemma tagScan_envelopeTail (e : ERPOrder) :
  tagScan None (envelopeTail e) = (None, tailTags).
Proof. unfold envelopeTail. tags_by_pieces. Qed.

Lemma tags_createSOAPEnvelope (e : ERPOrder) :
  tags (createSOAPEnvelope e)
  = headTags ++ flat_map (fun _ => itemTags) (Items e) ++ tailTags.
Proof.
  unfold tags.
  by rewrite createSOAPEnvelope_eq, tagScan_app, tagScan_envelopeHead, tagScan_app,
    tagScan_itemBlocks, tagScan_envelopeTail.
Qed.

Lemma count_itemTags (p : string -> bool) (items : list ERPItem) :
  length (List.filter p itemTags) = 1%nat ->
  length (List.filter p (flat_map (fun _ => itemTags) items)) = length items.
Proof.
  intros Hp. induction items as [|item items IH]; [done|].
  cbn [flat_map]. rewrite List.filter_app, length_app, Hp, IH. reflexivity.
Qed.

Lemma countTag_createSOAPEnvelope (e : ERPOrder) :
  countTag "tem:Item" (createSOAPEnvelope e) = length (Items e)
  /\ countTag "/tem:Item" (createSOAPEnvelope e) = length (Items e).
Proof.
  unfold countTag. rewrite tags_createSOAPEnvelope, !List.filter_app, !length_app.
  rewrite !count_itemTags by reflexivity.
  change (length (List.filter (String.eqb "tem:Item") headTags)) with 0%nat.
  change (length (List.filter (String.eqb "tem:Item") tailTags)) with 0%nat.
  change (length (List.filter (String.eqb "/tem:Item") headTags)) with 0%nat.
  change (length (List.filter (String.eqb "/tem:Item") tailTags)) with 0%nat.
  split; lia.
Qed.

Lemma itemBlocks_foldr (lineItems : list LineItem) (tail : string) :
  itemBlocks (map transformItem lineItems) +:+ tail
  = foldr (fun item rest => itemBlockOf item +:+ rest) tail lineItems.
Proof.
  induction lineItems as [|item lineItems IH]; [by rewrite append_nil_l|].
  cbn [map itemBlocks foldr]. rewrite append_assoc, IH. reflexivity.
Qed.

(** C6.  The line items go through index for index: the outbound items
    are as many as the inbound ones, and at every index the five fields of
    the outbound item are those of the inbound item at that index.  The
    envelope is a head and a tail that do not depend on the items and hold
    no item tag, with the item blocks in between: for each inbound item, in
    the order of the items, the block written out with the fields of that
    item.  So the envelope has as many [<tem:Item>] and [</tem:Item>] tags
    as there are items.  For the items [a; b; c] the outbound items are
    the three records shown and the blocks are those of [a], [b], [c], in
    this order. *)
Theorem line_items_order_preserved (o : ShopifyOrder) (now : string) :
  exists head tail : string,
    countTag "tem:Item" head = 0%nat
    /\ countTag "tem:Item" tail = 0%nat
    /\ (forall lineItems : list LineItem,
          exists e : ERPOrder,
            transformOrder (withLineItems o lineItems) now = Some e
            /\ length (Items e) = length lineItems
            /\ (forall i : nat,
                  SKU <$> Items e !! i = LineItem_SKU <$> lineItems !! i
                  /\ ProductName <$> Items e !! i = LineItem_Title <$> lineItems !! i
                  /\ Quantity <$> Items e !! i = LineItem_Quantity <$> lineItems !! i
                  /\ UnitPrice <$> Items e !! i = LineItem_Price <$> lineItems !! i
                  /\ VariantTitle <$> Items e !! i
                     = LineItem_VariantTitle <$> lineItems !! i)
            /\ createSOAPEnvelope e
               = head +:+ foldr (fun item rest => itemBlockOf item +:+ rest) tail lineItems
            /\ countTag "tem:Item" (createSOAPEnvelope e) = length lineItems
            /\ countTag "/tem:Item" (createSOAPEnvelope e) = length lineItems)
    /\ (forall a b c : LineItem,
          exists e : ERPOrder,
            transformOrder (withLineItems o [a; b; c]) now = Some e
            /\ Items e
               = [mkERPItem (LineItem_SKU a) (LineItem_Title a) (LineItem_Quantity a)
                            (LineItem_Price a) (LineItem_VariantTitle a);
                  mkERPItem (LineItem_SKU b) (LineItem_Title b) (LineItem_Quantity b)
                            (LineItem_Price b) (LineItem_VariantTitle b);
                  mkERPItem (LineItem_SKU c) (LineItem_Title c) (LineItem_Quantity c)
                            (LineItem_Price c) (LineItem_VariantTitle c)]
            /\ createSOAPEnvelope e
               = head +:+ itemBlockOf a +:+ itemBlockOf b +:+ itemBlockOf c +:+ tail).
Proof.
  exists (envelopeHead (transformedOrder o now)),
         (envelopeTail (transformedOrder o now)).
  split.
  { unfold countTag, tags. by rewrite tagScan_envelopeHead. }
  split.
  { unfold countTag, tags. by rewrite tagScan_envelopeTail. }
  split.
  - intros lineItems. exists (transformedOrder (withLineItems o lineItems) now).
    split; [apply transformOrder_eq|].
    assert (Hitems : Items (transformedOrder (withLineItems o lineItems) now)
                     = map transformItem lineItems) by reflexivity.
    split; [by rewrite Hitems, length_map|].
    split.
    { intros i. rewrite Hitems, list_lookup_fmap.
      by destruct (lineItems !! i) as [item|]. }
    split.
    { rewrite createSOAPEnvelope_eq, Hitems, itemBlocks_foldr. reflexivity. }
    destruct (countTag_createSOAPEnvelope (transformedOrder (withLineItems o lineItems) now))
      as [Hopen Hclose].
    rewrite Hitems, length_map in Hopen, Hclose.
    split; [exact Hopen | exact Hclose].
  - intros a b c. exists (transformedOrder (withLineItems o [a; b; c]) now).
    split; [apply transformOrder_eq|]. split; [reflexivity|].
    rewrite createSOAPEnvelope_eq.
    assert (Hitems : Items (transformedOrder (withLineItems o [a; b; c]) now)
                     = map transformItem [a; b; c]) by reflexivity.
    rewrite Hitems, itemBlocks_foldr. reflexivity.
Qed.

(** ** DeliveryCoordinator *)

Lemma is2xx_true s : 200 <= s < 300 -> is2xx s = true.
Proof. unfold is2xx. intros. apply andb_true_iff. lia. Qed.
Lemma is2xx_false s : s < 200 \/ 300 <= s -> is2xx s = false.
Proof. unfold is2xx. intros. apply andb_false_iff. lia. Qed.

Section Loop.
Variables (w : World) (ep sa xml rid oid : string).
Hypothesis Hurl : NewRequest_error w ep = None.

Local Abbreviation run := (sendLoop w ep sa xml rid oid).
Local Abbreviation events := (attemptEvents w ep sa xml rid oid).

Lemma sendLoop_done fuel attempt tr :
  MaxRetries < attempt ->
  run (S fuel) attempt tr = Some (Some (Errorf_send_order MaxRetries), tr).
Proof.
  intros H. cbn [sendLoop].
  destruct (Z.leb_spec attempt MaxRetries); [lia|done].
Qed.

Lemma sendLoop_ok fuel attempt tr :
  attempt <= MaxRetries -> okResponse (Do w attempt) ->
  run (S fuel) attempt tr = Some (None, tr ++ events attempt).
Proof.
  intros H Hok. cbn [sendLoop]. unfold attemptEvents.
  destruct (Z.leb_spec attempt MaxRetries); [|lia].
  unfold NewRequest. rewrite Hurl.
  destruct (Do w attempt) as [err|s h b]; [done|]. cbn in Hok.
  rewrite is2xx_true by done.
  by rewrite <- !app_assoc.
Qed.

Lemma sendLoop_retry fuel attempt tr :
  attempt < MaxRetries -> failedAttempt (Do w attempt) ->
  run (S fuel) attempt tr
  = run fuel (attempt + 1) (tr ++ events attempt ++ [Sleep (backoff attempt)]).
Proof.
  intros H Hfail. cbn [sendLoop]. unfold attemptEvents.
  destruct (Z.leb_spec attempt MaxRetries); [|lia].
  destruct (Z.ltb_spec attempt MaxRetries); [|lia].
  unfold NewRequest. rewrite Hurl.
  destruct (Do w attempt) as [err|s h b]; cbn in Hfail |- *.
  - f_equal. by rewrite <- !app_assoc.
  - rewrite is2xx_false by done. f_equal. by rewrite <- !app_assoc.
Qed.

Lemma sendLoop_last fuel tr :
  failedAttempt (Do w MaxRetries) ->
  run (S (S fuel)) MaxRetries tr
  = Some (Some (match Do w MaxRetries with
                | DoError err => Errorf_send_request MaxRetries err
                | DoResponse _ _ _ => Errorf_send_order MaxRetries
                end), tr ++ events MaxRetries).
Proof.
  intros Hfail. cbn [sendLoop]. unfold attemptEvents.
  change (MaxRetries <=? MaxRetries) with true.
  change (MaxRetries <? MaxRetries) with false.
  change (MaxRetries + 1 <=? MaxRetries) with false. cbn iota.
  unfold NewRequest. rewrite Hurl.
  destruct (Do w MaxRetries) as [err|s h b]; cbn in Hfail |- *.
  - by rewrite <- !app_assoc.
  - rewrite is2xx_false by done. by rewrite <- !app_assoc.
Qed.

Lemma roundTrips_app tr1 tr2 : roundTrips (tr1 ++ tr2) = roundTrips tr1 ++ roundTrips tr2.
Proof. apply omap_app. Qed.

Lemma schedule_app tr1 tr2 : schedule (tr1 ++ tr2) = schedule tr1 ++ schedule tr2.
Proof. apply omap_app. Qed.

Lemma roundTrips_events attempt : roundTrips (events attempt) = [attempt].
Proof. unfold attemptEvents. by destruct (Do w attempt). Qed.

Lemma schedule_events attempt : schedule (events attempt) = [Attempt attempt].
Proof. unfold attemptEvents. by destruct (Do w attempt). Qed.

Lemma last_events tr attempt :
  last (tr ++ events attempt) = Some (responseLogged rid oid (Do w attempt)).
Proof.
  unfold attemptEvents.
  by rewrite last_app.
Qed.

Local Ltac trace_facts :=
  repeat split;
  rewrite ?roundTrips_app, ?schedule_app, ?roundTrips_events, ?schedule_events;
  first [reflexivity | rewrite ?app_assoc; apply last_events].

(** Every run within the budget ends in a first success or with the
    budget used up. *)
Lemma sendLoop_cases :
  (exists k : Z, firstSuccessAt w k
     /\ exists tr, run 4%nat 1 [] = Some (None, tr)
        /\ roundTrips tr = (fun n => Z.of_nat n) <$> seq 1 (Z.to_nat k)
        /\ schedule tr = scheduleOf (Z.to_nat k)
        /\ last tr = Some (responseLogged rid oid (Do w k)))
  \/ (exhausted w
      /\ exists tr, run 4%nat 1 [] =
           Some (Some (match Do w MaxRetries with
                | DoError err => Errorf_send_request MaxRetries err
                | DoResponse _ _ _ => Errorf_send_order MaxRetries
                end), tr)
        /\ roundTrips tr = [1; 2; 3]
        /\ schedule tr = scheduleOf 3
        /\ last tr = Some (responseLogged rid oid (Do w MaxRetries))).
Proof.
  assert (Hdec : forall k, okResponse (Do w k) \/ failedAttempt (Do w k)).
  { intros k. destruct (Do w k) as [err|s h b]; cbn; [tauto|lia]. }
  destruct (Hdec 1) as [H1|H1].
  { left. exists 1. split.
    - split; [done|]. split; [done|]. intros j Hj. lia.
    - eexists. split; [by apply sendLoop_ok|]. trace_facts. }
  rewrite sendLoop_retry by done.
  destruct (Hdec 2) as [H2|H2].
  { left. exists 2. split.
    - split; [done|]. split; [done|]. intros j Hj. by replace j with 1 by lia.
    - eexists. split; [by apply sendLoop_ok|]. trace_facts. }
  rewrite sendLoop_retry by done.
  destruct (Hdec 3) as [H3|H3].
  { left. exists 3. split.
    - split; [done|]. split; [done|]. intros j Hj.
      assert (j = 1 \/ j = 2) as [-> | ->] by lia; done.
    - eexists. split; [by apply sendLoop_ok|]. trace_facts. }
  right. split.
  - intros k Hk. unfold MaxRetries in Hk.
    assert (k = 1 \/ k = 2 \/ k = 3) as [-> | [-> | ->]] by lia; done.
  - eexists. split; [by apply (sendLoop_last 1)|]. trace_facts.
Qed.
End Loop.

Lemma sendToERP_unfold (w : World) (erpOrder : ERPOrder) (requestID : string) :
  sendToERP w erpOrder requestID
  = sendLoop w (erpEndpointOf w) (soapActionOf w) (createSOAPEnvelope erpOrder)
             requestID (OrderID erpOrder) 4%nat 1 [].
Proof. reflexivity. Qed.

Lemma ok_not_failed (r : DoResult) : okResponse r -> failedAttempt r -> False.
Proof. destruct r; cbn; [tauto|lia]. Qed.

Lemma non2xx_failed (r : DoResult) : non2xxResponse r -> failedAttempt r.
Proof. by destruct r. Qed.

Lemma firstSuccessAt_unique (w : World) (k k' : Z) :
  firstSuccessAt w k -> firstSuccessAt w k' -> k = k'.
Proof.
  intros (Hk & Hok & Hbefore) (Hk' & Hok' & Hbefore').
  destruct (Z.lt_trichotomy k k') as [Hlt | [Heq | Hgt]]; [|done|].
  - destruct (ok_not_failed _ Hok). apply Hbefore'. lia.
  - destruct (ok_not_failed _ Hok'). apply Hbefore. lia.
Qed.


(** C1.  Against an endpoint that answers every request with a status
    outside 200..299, whatever the statuses are, [sendToERP] makes
    [MaxRetries] = 3 round trips, numbered 1, 2, 3, sleeps
    1 * RetryDelay between the first and the second and 2 * RetryDelay
    between the second and the third, and returns the error
    "failed to send order to ERP after 3 attempts". *)
Theorem retry_exhaustion_on_non2xx
    (w : World) (erpOrder : ERPOrder) (requestID : string) :
  requestAccepted w ->
  (forall k : Z, non2xxResponse (Do w k)) ->
  exists (err : error) (tr : list Event),
    sendToERP w erpOrder requestID = Some (Some err, tr)
    /\ attemptsMade tr = Z.to_nat MaxRetries
    /\ roundTrips tr = [1; 2; 3]
    /\ schedule tr = [Attempt 1; Pause (1 * RetryDelay);
                      Attempt 2; Pause (2 * RetryDelay);
                      Attempt 3]
    /\ err = Errorf_send_order MaxRetries.
Proof.
  intros Hurl Hall. rewrite sendToERP_unfold.
  destruct (sendLoop_cases w _ (soapActionOf w) (createSOAPEnvelope erpOrder)
              requestID (OrderID erpOrder) Hurl)
    as [(k & (_ & Hok & _) & _) | (_ & tr & Hrun & Htrips & Hsched & _)].
  - destruct (ok_not_failed _ Hok). apply non2xx_failed, Hall.
  - rewrite Hrun. specialize (Hall MaxRetries).
    destruct (Do w MaxRetries) as [cause|s h b]; [done|].
    exists (Errorf_send_order MaxRetries), tr.
    unfold attemptsMade. rewrite Htrips, Hsched. done.
Qed.

Lemma retry_exhaustion_on_non2xx_witness :
  requestAccepted (worldAlways 500)
  /\ (forall k : Z, non2xxResponse (Do (worldAlways 500) k))
  /\ exists (err : error) (tr : list Event),
       sendToERP (worldAlways 500) sampleERPOrder "req-1" = Some (Some err, tr)
       /\ attemptsMade tr = Z.to_nat MaxRetries
       /\ roundTrips tr = [1; 2; 3]
       /\ schedule tr = [Attempt 1; Pause (1 * RetryDelay);
                         Attempt 2; Pause (2 * RetryDelay);
                         Attempt 3]
       /\ err = Errorf_send_order MaxRetries.
Proof.
  assert (Hurl : requestAccepted (worldAlways 500)) by reflexivity.
  assert (Hall : forall k : Z, non2xxResponse (Do (worldAlways 500) k)).
  { intros k. cbn. lia. }
  split; [exact Hurl|]. split; [exact Hall|].
  exact (retry_exhaustion_on_non2xx (worldAlways 500) sampleERPOrder "req-1" Hurl Hall).
Defined.

(** C2.  Attempt [k] is the first within the budget to see a status in
    200..299 exactly when [sendToERP] returns [nil] after [k] round trips.
    In that case the round trips are 1, ..., k with the pauses of the
    schedule in between, and the last thing the run does is log the
    response of attempt [k]: nothing is slept or sent afterwards.  The
    status alone decides; header and body of the response are only
    logged. *)
Theorem early_success
    (w : World) (erpOrder : ERPOrder) (requestID : string) (k : Z) :
  requestAccepted w ->
  (firstSuccessAt w k
   <-> exists tr : list Event,
         sendToERP w erpOrder requestID = Some (None, tr)
         /\ Z.of_nat (attemptsMade tr) = k)
  /\ (firstSuccessAt w k ->
      exists tr : list Event,
        sendToERP w erpOrder requestID = Some (None, tr)
        /\ attemptsMade tr = Z.to_nat k
        /\ roundTrips tr = (fun n => Z.of_nat n) <$> seq 1 (Z.to_nat k)
        /\ schedule tr = scheduleOf (Z.to_nat k)
        /\ last tr = Some (responseLogged requestID (OrderID erpOrder) (Do w k))).
Proof.
  intros Hurl. rewrite sendToERP_unfold.
  pose proof (sendLoop_cases w _ (soapActionOf w) (createSOAPEnvelope erpOrder)
                requestID (OrderID erpOrder) Hurl) as Hcases.
  assert (Hfwd : firstSuccessAt w k ->
      exists tr : list Event,
        sendLoop w (erpEndpointOf w) (soapActionOf w) (createSOAPEnvelope erpOrder)
                 requestID (OrderID erpOrder) 4%nat 1 [] = Some (None, tr)
        /\ attemptsMade tr = Z.to_nat k
        /\ roundTrips tr = (fun n => Z.of_nat n) <$> seq 1 (Z.to_nat k)
        /\ schedule tr = scheduleOf (Z.to_nat k)
        /\ last tr = Some (responseLogged requestID (OrderID erpOrder) (Do w k))).
  { intros Hk.
    destruct Hcases as [(k0 & Hk0 & tr & Hrun & Htrips & Hsched & Hlast)
                       | (Hex & _)].
    - rewrite (firstSuccessAt_unique _ _ _ Hk Hk0).
      exists tr. unfold attemptsMade. rewrite Htrips, length_fmap, length_seq. done.
    - destruct Hk as (Hk & Hok & _). destruct (ok_not_failed _ Hok). by apply Hex. }
  split; [split|]; [| |exact Hfwd].
  - intros Hk. destruct (Hfwd Hk) as (tr & Hrun & Hn & _).
    exists tr. split; [done|]. rewrite Hn. destruct Hk as ((?&?)&_). lia.
  - intros (tr & Hrun & Hn).
    destruct Hcases as [(k0 & Hk0 & tr0 & Hrun0 & Htrips & _)
                       | (_ & tr0 & Hrun0 & _)].
    + rewrite Hrun0 in Hrun. injection Hrun as <-.
      unfold attemptsMade in Hn. rewrite Htrips, length_fmap, length_seq in Hn.
      destruct Hk0 as ((?&?)&?&?).
      replace k with k0 by lia. done.
    + rewrite Hrun0 in Hrun. discriminate.
Qed.

Lemma early_success_witness :
  requestAccepted worldSecondOk
  /\ firstSuccessAt worldSecondOk 2
  /\ exists tr : list Event,
       sendToERP worldSecondOk sampleERPOrder "req-2" = Some (None, tr)
       /\ attemptsMade tr = Z.to_nat 2
       /\ roundTrips tr = (fun n => Z.of_nat n) <$> seq 1 (Z.to_nat 2)
       /\ schedule tr = scheduleOf (Z.to_nat 2)
       /\ last tr = Some (responseLogged "req-2" (OrderID sampleERPOrder)
                                         (Do worldSecondOk 2)).
Proof.
  assert (Hurl : requestAccepted worldSecondOk) by reflexivity.
  assert (Hfirst : firstSuccessAt worldSecondOk 2).
  { split; [done|]. split; [cbn; lia|].
    intros j Hj. replace j with 1 by lia. cbn. lia. }
  split; [exact Hurl|]. split; [exact Hfirst|].
  exact (proj2 (early_success worldSecondOk sampleERPOrder "req-2" 2 Hurl) Hfirst).
Defined.

(** C3, as the code has it.  When the budget is used up without a 2xx,
    the returned error always names the number of attempts made (3, the
    budget).  If the last attempt got no response, the error also wraps
    and quotes the transport error of that attempt.  If the last attempt
    got a non-2xx response, the error is the fixed text
    "failed to send order to ERP after 3 attempts" and wraps nothing: the
    status is written to the response log (the last event of the run),
    not returned. *)
Theorem exhaustion_report
    (w : World) (erpOrder : ERPOrder) (requestID : string) :
  requestAccepted w ->
  exhausted w ->
  exists (err : error) (tr : list Event),
    sendToERP w erpOrder requestID = Some (Some err, tr)
    /\ attemptsMade tr = Z.to_nat MaxRetries
    /\ last tr = Some (responseLogged requestID (OrderID erpOrder) (Do w MaxRetries))
    /\ match Do w MaxRetries with
       | DoError cause =>
           err = Errorf_send_request MaxRetries cause
           /\ Unwrap err = Some cause
           /\ Error err = "failed to send request after 3 attempts: " +:+ Error cause
       | DoResponse _ _ _ =>
           err = Errorf_send_order MaxRetries
           /\ Unwrap err = None
           /\ Error err = "failed to send order to ERP after 3 attempts"
       end.
Proof.
  intros Hurl Hex. rewrite sendToERP_unfold.
  destruct (sendLoop_cases w _ (soapActionOf w) (createSOAPEnvelope erpOrder)
              requestID (OrderID erpOrder) Hurl)
    as [(k & (Hk & Hok & _) & _) | (_ & tr & Hrun & Htrips & _ & Hlast)].
  - destruct (ok_not_failed _ Hok). by apply Hex.
  - rewrite Hrun. eexists _, tr. split; [done|].
    unfold attemptsMade. rewrite Htrips. split; [done|]. split; [done|].
    by destruct (Do w MaxRetries).
Qed.

Lemma exhaustion_report_witness :
  requestAccepted worldRefused
  /\ exhausted worldRefused
  /\ exists (err : error) (tr : list Event),
       sendToERP worldRefused sampleERPOrder "req-3" = Some (Some err, tr)
       /\ attemptsMade tr = Z.to_nat MaxRetries
       /\ last tr = Some (responseLogged "req-3" (OrderID sampleERPOrder)
                                         (Do worldRefused MaxRetries))
       /\ err = Errorf_send_request MaxRetries (ErrNew "connection refused")
       /\ Unwrap err = Some (ErrNew "connection refused")
       /\ Error err = "failed to send request after 3 attempts: connection refused".
Proof.
  assert (Hurl : requestAccepted worldRefused) by reflexivity.
  assert (Hex : exhausted worldRefused) by (intros k Hk; exact I).
  split; [exact Hurl|]. split; [exact Hex|].
  exact (exhaustion_report worldRefused sampleERPOrder "req-3" Hurl Hex).
Defined.

(** C3 as stated fails in the non-2xx case: an endpoint that always
    answers 500 and one that always answers 404 make [sendToERP] return
    the very same error, so nothing computed from the returned error can be
    the last status observed. *)
Lemma last_status_not_reported :
  (exists (err : error) (tr500 tr404 : list Event),
      sendToERP (worldAlways 500) sampleERPOrder "req-4" = Some (Some err, tr500)
      /\ sendToERP (worldAlways 404) sampleERPOrder "req-4" = Some (Some err, tr404)
      /\ Error err = "failed to send order to ERP after 3 attempts"
      /\ Unwrap err = None)
  /\ ~ exists report : error -> option Z, reportsLastStatus report.
Proof.
  assert (H500 : exists tr, sendToERP (worldAlways 500) sampleERPOrder "req-4"
                            = Some (Some (Errorf_send_order MaxRetries), tr))
    by (eexists; reflexivity).
  assert (H404 : exists tr, sendToERP (worldAlways 404) sampleERPOrder "req-4"
                            = Some (Some (Errorf_send_order MaxRetries), tr))
    by (eexists; reflexivity).
  destruct H500 as [tr500 H500], H404 as [tr404 H404].
  split.
  - exists (Errorf_send_order MaxRetries), tr500, tr404. done.
  - intros [report Hreport].
    assert (Hacc : forall s, requestAccepted (worldAlways s)) by reflexivity.
    assert (Hex : forall s, s < 200 \/ 300 <= s -> exhausted (worldAlways s)).
    { intros s Hs k _. exact Hs. }
    pose proof (Hreport (worldAlways 500) sampleERPOrder "req-4" _ tr500 500 ∅ ""
                        (Hacc 500) (Hex 500 ltac:(lia)) eq_refl H500) as R500.
    pose proof (Hreport (worldAlways 404) sampleERPOrder "req-4" _ tr404 404 ∅ ""
                        (Hacc 404) (Hex 404 ltac:(lia)) eq_refl H404) as R404.
    rewrite R500 in R404. discriminate.
Qed.

(** * Further properties *)

Lemma length_append (a b : string) :
  String.length (a +:+ b) = (String.length a + String.length b)%nat.
Proof.
  induction a as [|x a IH]; [done|].
  rewrite append_cons. cbn [String.length]. by rewrite IH.
Qed.

Lemma countChar_append (c : ascii) (a b : string) :
  countChar c (a +:+ b) = (countChar c a + countChar c b)%nat.
Proof.
  induction a as [|x a IH]; [done|].
  rewrite append_cons. cbn [countChar]. rewrite IH. lia.
Qed.

Lemma escapeByte_plain (c : ascii) : isSpecial c = false -> escapeByte c = String c "".
Proof.
  unfold isSpecial, escapeByte. intros H.
  repeat (apply orb_false_iff in H as [H ?]).
  by repeat match goal with E : _ = false |- _ => rewrite E; clear E end.
Qed.

Lemma escapeByte_special (c : ascii) :
  isSpecial c = true ->
  (4 <= String.length (escapeByte c) <= 5)%nat
  /\ exists rest, escapeByte c = String "&" rest.
Proof.
  unfold isSpecial, escapeByte. intros H.
  destruct (Ascii.eqb c "&"); [cbn; split; [lia|eauto]|].
  destruct (Ascii.eqb c "'"); [cbn; split; [lia|eauto]|].
  destruct (Ascii.eqb c "<"); [cbn; split; [lia|eauto]|].
  destruct (Ascii.eqb c ">"); [cbn; split; [lia|eauto]|].
  destruct (Ascii.eqb c "034"); [cbn; split; [lia|eauto]|].
  done.
Qed.

Lemma xmlEscape_cons (c : ascii) (s : string) :
  xmlEscape (String c s) = escapeByte c +:+ xmlEscape s.
Proof. reflexivity. Qed.

(** X1.  Escaping a concatenation is concatenating the escaped parts:
    the escaped form of a string never depends on what surrounds it. *)
Theorem xmlEscape_append (a b : string) :
  xmlEscape (a +:+ b) = xmlEscape a +:+ xmlEscape b.
Proof.
  induction a as [|c a IH]; [done|].
  by rewrite append_cons, !xmlEscape_cons, IH, append_assoc.
Qed.

Lemma countChar_escapeByte (x c : ascii) :
  isSpecial x = true -> x <> "&"%char -> countChar x (escapeByte c) = 0%nat.
Proof.
  intros Hx Hamp. unfold isSpecial in Hx.
  destruct (Ascii.eqb_spec x "&"); [done|].
  destruct (Ascii.eqb_spec x "'") as [->|];
    [|destruct (Ascii.eqb_spec x "<") as [->|];
      [|destruct (Ascii.eqb_spec x ">") as [->|];
        [|destruct (Ascii.eqb_spec x "034") as [->|]; [|done]]]];
    unfold escapeByte;
    (destruct (Ascii.eqb c "&") eqn:E1; [reflexivity|]);
    (destruct (Ascii.eqb c "'") eqn:E2; [reflexivity|]);
    (destruct (Ascii.eqb c "<") eqn:E3; [reflexivity|]);
    (destruct (Ascii.eqb c ">") eqn:E4; [reflexivity|]);
    (destruct (Ascii.eqb c "034") eqn:E5; [reflexivity|]);
    cbn [countChar]; by rewrite ?E2, ?E3, ?E4, ?E5.
Qed.

Lemma countChar_xmlEscape (x : ascii) (s : string) :
  isSpecial x = true -> x <> "&"%char -> countChar x (xmlEscape s) = 0%nat.
Proof.
  intros Hx Hamp. induction s as [|c s IH]; [done|].
  by rewrite xmlEscape_cons, countChar_append, countChar_escapeByte, IH.
Qed.

(** X2.  No escaped string holds an angle bracket, a double quote or an
    apostrophe. *)
Theorem xmlEscape_output_alphabet (s : string) :
  countChar "<" (xmlEscape s) = 0%nat
  /\ countChar ">" (xmlEscape s) = 0%nat
  /\ countChar "034" (xmlEscape s) = 0%nat
  /\ countChar "'" (xmlEscape s) = 0%nat.
Proof. repeat split; by apply countChar_xmlEscape. Qed.

Lemma length_escapeByte (c : ascii) :
  (1 <= String.length (escapeByte c) <= 5)%nat.
Proof.
  destruct (isSpecial c) eqn:H.
  - destruct (escapeByte_special c H) as [? _]. lia.
  - rewrite escapeByte_plain by done. cbn. lia.
Qed.

Lemma length_xmlEscape (s : string) :
  (String.length s <= String.length (xmlEscape s) <= 5 * String.length s)%nat.
Proof.
  induction s as [|c s IH]; [cbn; lia|].
  rewrite xmlEscape_cons, length_append. cbn [String.length].
  pose proof (length_escapeByte c). lia.
Qed.

Lemma length_xmlEscape_special (s : string) :
  hasSpecial s = true -> (String.length s < String.length (xmlEscape s))%nat.
Proof.
  induction s as [|c s IH]; [done|]. cbn [hasSpecial]. intros H.
  rewrite xmlEscape_cons, length_append. cbn [String.length].
  pose proof (length_xmlEscape s).
  destruct (isSpecial c) eqn:Hc.
  - destruct (escapeByte_special c Hc) as [? _]. lia.
  - cbn in H. specialize (IH H). pose proof (length_escapeByte c). lia.
Qed.

Lemma xmlEscape_clean (s : string) : hasSpecial s = false -> xmlEscape s = s.
Proof.
  induction s as [|c s IH]; [done|]. cbn [hasSpecial]. intros H.
  apply orb_false_iff in H as [Hc Hs].
  by rewrite xmlEscape_cons, escapeByte_plain, IH.
Qed.

Lemma hasSpecial_append (a b : string) :
  hasSpecial (a +:+ b) = hasSpecial a || hasSpecial b.
Proof.
  induction a as [|c a IH]; [done|].
  rewrite append_cons. cbn [hasSpecial]. by rewrite IH, orb_assoc.
Qed.

Lemma hasSpecial_xmlEscape (s : string) :
  hasSpecial (xmlEscape s) = hasSpecial s.
Proof.
  induction s as [|c s IH]; [done|].
  rewrite xmlEscape_cons, hasSpecial_append, IH. cbn [hasSpecial]. f_equal.
  destruct (isSpecial c) eqn:Hc.
  - by destruct (escapeByte_special c Hc) as [_ [rest ->]].
  - rewrite escapeByte_plain by done. cbn [hasSpecial]. by rewrite Hc.
Qed.

(** X3.  Escaping never shortens a string and at most quintuples it; it
    returns the string unchanged exactly when none of the five characters
    occurs; and escaping twice equals escaping once on exactly those
    strings: anything that needed escaping is changed again by a second
    pass. *)
Theorem xmlEscape_fixed_points (s : string) :
  (String.length s <= String.length (xmlEscape s) <= 5 * String.length s)%nat
  /\ (xmlEscape s = s <-> hasSpecial s = false)
  /\ (xmlEscape (xmlEscape s) = xmlEscape s <-> hasSpecial s = false).
Proof.
  assert (Hfix : forall t, xmlEscape t = t <-> hasSpecial t = false).
  { intros t. split; [|apply xmlEscape_clean].
    intros Heq. destruct (hasSpecial t) eqn:Ht; [|done].
    pose proof (length_xmlEscape_special t Ht) as Hlen.
    rewrite Heq in Hlen. lia. }
  split; [apply length_xmlEscape|]. split; [apply Hfix|].
  rewrite Hfix. by rewrite hasSpecial_xmlEscape.
Qed.

(** X4.  Two strings have the same escaped form only if they are equal. *)
Theorem xmlEscape_injective (a b : string) :
  xmlEscape a = xmlEscape b <-> a = b.
Proof.
  split; [|by intros ->].
  intros Heq. assert (H : unquote (xmlEscape a) = unquote (xmlEscape b)) by by rewrite Heq.
  rewrite !unquote_xmlEscape in H. by injection H.
Qed.

Lemma Sprintf_d_parse (n : Z) :
  option_map Z.of_int (NilZero.int_of_string (Sprintf_d n)) = Some n.
Proof.
  unfold Sprintf_d. rewrite NilZero.isi.
  - cbn [option_map]. by rewrite DecimalZ.of_to.
  - destruct n; cbn [Z.to_int]; [done| |done].
    intros [= H]. by apply DecimalPos.Unsigned.to_uint_nonnil in H.
  - destruct n; cbn [Z.to_int]; [done|done|].
    intros [= H]. by apply DecimalPos.Unsigned.to_uint_nonnil in H.
Qed.

Lemma decoded_items_inj (l1 : list ERPItem) : forall l2 : list ERPItem,
  map decoded (flat_map scalarsOfItem l1) = map decoded (flat_map scalarsOfItem l2) ->
  l1 = l2.
Proof.
  induction l1 as [|[s1 p1 q1 u1 v1] l1 IH]; intros [|[s2 p2 q2 u2 v2] l2] H;
    [done|done|done|].
  cbn in H. injection H as -> -> Hq -> -> H.
  f_equal; [|by apply IH].
  f_equal.
  pose proof (Sprintf_d_parse q1) as H1. rewrite Hq, Sprintf_d_parse in H1.
  by injection H1.
Qed.

Lemma decodedFields_inj (e1 e2 : ERPOrder) :
  decodedFields e1 = decodedFields e2 -> e1 = e2.
Proof.
  destruct e1 as [a1 a2 a3 a4 a5 a6 a7 a8 a9 a10 a11 a12 items1
                    [s1 s2 s3 s4 s5 s6 s7 s8 s9] [b1 b2 b3 b4 b5 b6 b7 b8 b9] t1].
  destruct e2 as [c1 c2 c3 c4 c5 c6 c7 c8 c9 c10 c11 c12 items2
                    [u1 u2 u3 u4 u5 u6 u7 u8 u9] [v1 v2 v3 v4 v5 v6 v7 v8 v9] t2].
  unfold decodedFields, scalarsOfHead, scalarsOfAddress.
  cbn [Items Timestamp ShippingAddress BillingAddress map app].
  unfold decoded at 1 2 3 4 5 6 7 8 9 10 11 12 13 14 15 16 17 18 19 20 21 22 23 24 25 26 27 28 29 30.
  cbn [Items Timestamp OrderID OrderNumber CustomerEmail CustomerName CustomerPhone
       OrderDate TotalAmount SubtotalAmount TaxAmount Currency PaymentStatus
       FulfillmentStatus ShippingAddress BillingAddress Name Company AddressLine1
       AddressLine2 City State PostalCode Country Phone map app decoded fst snd
       originalText].
  intros H.
  injection H; clear H; intros; subst.
  match goal with
  | H : _ ++ [_] = _ ++ [_] |- _ => apply app_inj_tail in H as [Hitems Ht]
  end.
  injection Ht as ->.
  f_equal.
  destruct items1 as [|i1 l1], items2 as [|i2 l2]; [done| | |].
  - destruct i2. discriminate Hitems.
  - destruct i1. discriminate Hitems.
  - by apply decoded_items_inj.
Qed.

(** X5.  Two outbound orders give the same envelope only if they are
    equal: no field value, no item boundary and no item count is lost or
    confused in the encoding. *)
Theorem createSOAPEnvelope_injective (e1 e2 : ERPOrder) :
  createSOAPEnvelope e1 = createSOAPEnvelope e2 <-> e1 = e2.
Proof.
  split; [|by intros ->]. intros H.
  apply decodedFields_inj. by rewrite <- !unquotedLeaves_createSOAPEnvelope, H.
Qed.

Lemma decimal_uint (d : Decimal.uint) :
  allChars isDecimalChar (NilEmpty.string_of_uint d) = true.
Proof. induction d; cbn [NilEmpty.string_of_uint allChars]; by rewrite ?IHd. Qed.

Lemma decimal_Sprintf_d (n : Z) : allChars isDecimalChar (Sprintf_d n) = true.
Proof.
  unfold Sprintf_d, NilZero.string_of_int, NilZero.string_of_uint.
  destruct (Z.to_int n) as [d|d]; destruct d; try done;
    cbn [NilEmpty.string_of_uint allChars]; by rewrite decimal_uint.
Qed.

Lemma countChar_allChars (p : ascii -> bool) (c : ascii) (s : string) :
  p c = false -> allChars p s = true -> countChar c s = 0%nat.
Proof.
  intros Hc. induction s as [|x s IH]; [done|]. cbn [allChars countChar].
  intros H. apply andb_true_iff in H as [Hx Hs]. rewrite IH by done.
  destruct (Ascii.eqb_spec x c) as [->|]; [congruence|done].
Qed.

(** X6.  The decimal text of an integer, as used for the order id, the
    order number and the quantity, is never empty, holds only digits and
    a minus sign, and is the same for two integers only if they are
    equal. *)
Theorem Sprintf_d_injective (n m : Z) :
  (Sprintf_d n = Sprintf_d m <-> n = m)
  /\ allChars isDecimalChar (Sprintf_d n) = true
  /\ Sprintf_d n <> "".
Proof.
  split; [|split].
  - split; [|by intros ->]. intros Heq.
    pose proof (Sprintf_d_parse n) as Hn. rewrite Heq, Sprintf_d_parse in Hn.
    by injection Hn.
  - apply decimal_Sprintf_d.
  - intros H. pose proof (Sprintf_d_parse n) as Hn. by rewrite H in Hn.
Qed.

Lemma countChar_itemBlocks (c : ascii) (k : nat) (items : list ERPItem) :
  (forall item, countChar c (itemBlock item) = k) ->
  countChar c (itemBlocks items) = (k * length items)%nat.
Proof.
  intros Hk. induction items as [|item items IH]; cbn [itemBlocks length]; [cbn; lia|].
  rewrite countChar_append, Hk, IH. lia.
Qed.

Lemma countChar_Sprintf_d (c : ascii) (n : Z) :
  isDecimalChar c = false -> countChar c (Sprintf_d n) = 0%nat.
Proof. intros Hc. exact (countChar_allChars _ _ _ Hc (decimal_Sprintf_d n)). Qed.

Lemma countChar_render (c : ascii) (ps : list piece) :
  countChar c (render ps) = countPieces c ps.
Proof.
  induction ps as [|[s|t] ps IH]; [done| |];
    cbn [render countPieces]; by rewrite countChar_append, IH.
Qed.

Ltac abstract_counts c :=
  repeat match goal with
         | |- context [xmlEscape ?v] =>
             let x := fresh "x" in
             let Hx := fresh "Hx" in
             pose proof (countChar_xmlEscape c v eq_refl ltac:(discriminate)) as Hx;
             generalize dependent (xmlEscape v); intros x Hx
         | |- context [Sprintf_d ?n] =>
             let x := fresh "x" in
             let Hx := fresh "Hx" in
             pose proof (countChar_Sprintf_d c n eq_refl) as Hx;
             generalize dependent (Sprintf_d n); intros x Hx
         end.

Ltac count_markup :=
  lazymatch goal with
  | |- countChar ?c ?t = _ =>
      abstract_counts c;
      rewrite ?append_assoc;
      lazymatch goal with
      | |- countChar c ?t' = _ =>
          let ps := reify_pieces t' in
          change t' with (render ps);
          rewrite (countChar_render c ps);
          cbn [countPieces];
          repeat match goal with
                 | H : countChar c _ = 0%nat |- _ => rewrite H; clear H
                 end;
          vm_compute; reflexivity
      end
  end.

Lemma countChar_envelopeHead (e : ERPOrder) :
  countChar "<" (envelopeHead e) = 71%nat
  /\ countChar ">" (envelopeHead e) = 71%nat
  /\ countChar "034" (envelopeHead e) = 8%nat.
Proof. unfold envelopeHead. split; [|split]; count_markup. Qed.

Lemma countChar_envelopeTail (e : ERPOrder) :
  countChar "<" (envelopeTail e) = 7%nat
  /\ countChar ">" (envelopeTail e) = 7%nat
  /\ countChar "034" (envelopeTail e) = 0%nat.
Proof. unfold envelopeTail. split; [|split]; count_markup. Qed.

Lemma countChar_itemBlock (item : ERPItem) :
  countChar "<" (itemBlock item) = 12%nat
  /\ countChar ">" (itemBlock item) = 12%nat
  /\ countChar "034" (itemBlock item) = 0%nat.
Proof. unfold itemBlock. split; [|split]; count_markup. Qed.

Lemma countChar_createSOAPEnvelope (c : ascii) (e : ERPOrder) :
  countChar c (createSOAPEnvelope e)
  = (countChar c (envelopeHead e) + countChar c (itemBlocks (Items e))
     + countChar c (envelopeTail e))%nat.
Proof.
  rewrite createSOAPEnvelope_eq.
  rewrite (countChar_append c (envelopeHead e)).
  rewrite (countChar_append c (itemBlocks (Items e))). lia.
Qed.

(** X7.  The number of opening and of closing angle brackets in an
    envelope is 78 plus 12 per item, and there are exactly 8 double quotes,
    whatever the field values are: no value adds or removes markup. *)
Theorem markup_count_content_independent (e : ERPOrder) :
  countChar "<" (createSOAPEnvelope e) = (78 + 12 * length (Items e))%nat
  /\ countChar ">" (createSOAPEnvelope e) = (78 + 12 * length (Items e))%nat
  /\ countChar "034" (createSOAPEnvelope e) = 8%nat.
Proof.
  destruct (countChar_envelopeHead e) as (Hh1 & Hh2 & Hh3).
  destruct (countChar_envelopeTail e) as (Ht1 & Ht2 & Ht3).
  rewrite !countChar_createSOAPEnvelope.
  rewrite (countChar_itemBlocks "<" 12 (Items e))
    by (intros item; exact (proj1 (countChar_itemBlock item))).
  rewrite (countChar_itemBlocks ">" 12 (Items e))
    by (intros item; exact (proj1 (proj2 (countChar_itemBlock item)))).
  rewrite (countChar_itemBlocks "034" 0 (Items e))
    by (intros item; exact (proj2 (proj2 (countChar_itemBlock item)))).
  rewrite Hh1, Hh2, Hh3, Ht1, Ht2, Ht3. lia.
Qed.

Lemma transformItem_mapped (l l' : list LineItem) :
  map mappedItemFields l = map mappedItemFields l' ->
  map transformItem l = map transformItem l'.
Proof.
  revert l'. induction l as [|i l IH]; intros [|i' l'] H; try done.
  cbn [map] in *. injection H as H1 H2 H3 H4 H5 H.
  rewrite (IH l' H). f_equal. unfold transformItem. congruence.
Qed.

(** X8.  The outbound order depends only on the inbound fields the mapper
    reads: orders that differ in [updated_at], in the customer id and
    e-mail, in the ids, name and fulfillment service of the items or in the
    province and country codes map to the same outbound order. *)
Theorem transformOrder_ignores_unmapped_fields (o o' : ShopifyOrder) (now : string) :
  sameMappedFields o o' -> transformOrder o now = transformOrder o' now.
Proof.
  destruct o as [id num email created updated total subtotal tax currency fin ful
                   [cid cemail cfirst clast cphone] items
                   [s1 s2 s3 s4 s5 s6 s7 s8 s9 s10 s11 s12]
                   [b1 b2 b3 b4 b5 b6 b7 b8 b9 b10 b11 b12]].
  destruct o' as [id' num' email' created' updated' total' subtotal' tax' currency'
                    fin' ful' [cid' cemail' cfirst' clast' cphone'] items'
                    [t1 t2 t3 t4 t5 t6 t7 t8 t9 t10 t11 t12]
                    [c1 c2 c3 c4 c5 c6 c7 c8 c9 c10 c11 c12]].
  unfold sameMappedFields, mappedAddressFields.
  cbn [Shopify_ID Shopify_OrderNumber Shopify_Email Shopify_CreatedAt
       Shopify_TotalPrice Shopify_SubtotalPrice Shopify_TotalTax Shopify_Currency
       Shopify_FinancialStatus Shopify_FulfillmentStatus Shopify_Customer
       Shopify_LineItems Shopify_ShippingAddress Shopify_BillingAddress
       Customer_FirstName Customer_LastName Customer_Phone
       Address_FirstName Address_LastName Address_Company Address_Address1
       Address_Address2 Address_City Address_Province Address_Zip Address_Country
       Address_Phone].
  intros (-> & -> & -> & -> & -> & -> & -> & -> & -> & -> & -> & -> & ->
          & Hitems & Hship & Hbill).
  injection Hship as -> -> -> -> -> -> -> -> -> ->.
  injection Hbill as -> -> -> -> -> -> -> -> -> ->.
  apply transformItem_mapped in Hitems.
  rewrite !transformOrder_eq. unfold transformedOrder.
  cbn [Shopify_LineItems]. by rewrite Hitems.
Qed.

Lemma transformOrder_ignores_unmapped_fields_witness :
  sameMappedFields scenarioOrder scenarioOrderOtherwise
  /\ scenarioOrder <> scenarioOrderOtherwise
  /\ transformOrder scenarioOrder "2026-03-01T08:00:00Z"
     = transformOrder scenarioOrderOtherwise "2026-03-01T08:00:00Z".
Proof.
  assert (H : sameMappedFields scenarioOrder scenarioOrderOtherwise).
  { unfold sameMappedFields. repeat (split; [reflexivity|]). reflexivity. }
  split; [exact H|]. split; [discriminate|].
  exact (transformOrder_ignores_unmapped_fields _ _ "2026-03-01T08:00:00Z" H).
Defined.

(** X9.  The display name does not keep where the first name ends: moving
    a word from the end of the first name to the start of the last name
    gives the same outbound order. *)
Theorem transformOrder_name_split_lost (o : ShopifyOrder) (now a b c : string) :
  transformOrder (withCustomerNames o (a +:+ " " +:+ b) c) now
  = transformOrder (withCustomerNames o a (b +:+ " " +:+ c)) now.
Proof.
  rewrite !transformOrder_eq. f_equal. unfold transformedOrder.
  cbn [withCustomerNames Shopify_ID Shopify_OrderNumber Shopify_Email Shopify_CreatedAt
       Shopify_TotalPrice Shopify_SubtotalPrice Shopify_TotalTax Shopify_Currency
       Shopify_FinancialStatus Shopify_FulfillmentStatus Shopify_Customer
       Shopify_LineItems Shopify_ShippingAddress Shopify_BillingAddress
       Customer_FirstName Customer_LastName Customer_Phone].
  unfold Sprintf_s_s. by rewrite !append_assoc.
Qed.

Section Trace.
Variables (w : World) (ep sa xml rid oid : string).
Hypothesis Hurl : NewRequest_error w ep = None.

Local Abbreviation run := (sendLoop w ep sa xml rid oid).
Local Abbreviation trace := (deliveryTrace w ep sa xml rid oid).

Lemma sendLoop_trace :
  (exists k : Z, firstSuccessAt w k
     /\ run 4%nat 1 [] = Some (None, trace (Z.to_nat k)))
  \/ (exhausted w
      /\ run 4%nat 1 [] =
           Some (Some (match Do w MaxRetries with
                       | DoError err => Errorf_send_request MaxRetries err
                       | DoResponse _ _ _ => Errorf_send_order MaxRetries
                       end), trace 3)).
Proof.
  assert (Hdec : forall k, okResponse (Do w k) \/ failedAttempt (Do w k)).
  { intros k. destruct (Do w k) as [err|s h b]; cbn; [tauto|lia]. }
  destruct (Hdec 1) as [H1|H1].
  { left. exists 1. split.
    - split; [done|]. split; [done|]. intros j Hj. lia.
    - by rewrite (sendLoop_ok w ep sa xml rid oid Hurl). }
  rewrite (sendLoop_retry w ep sa xml rid oid Hurl) by done.
  destruct (Hdec 2) as [H2|H2].
  { left. exists 2. split.
    - split; [done|]. split; [done|]. intros j Hj. by replace j with 1 by lia.
    - rewrite (sendLoop_ok w ep sa xml rid oid Hurl) by done. reflexivity. }
  rewrite (sendLoop_retry w ep sa xml rid oid Hurl) by done.
  destruct (Hdec 3) as [H3|H3].
  { left. exists 3. split.
    - split; [done|]. split; [done|]. intros j Hj.
      assert (j = 1 \/ j = 2) as [-> | ->] by lia; done.
    - rewrite (sendLoop_ok w ep sa xml rid oid Hurl) by done. reflexivity. }
  right. split.
  - intros k Hk. unfold MaxRetries in Hk.
    assert (k = 1 \/ k = 2 \/ k = 3) as [-> | [-> | ->]] by lia; done.
  - change (1 + 1 + 1) with MaxRetries.
    rewrite (sendLoop_last w ep sa xml rid oid Hurl 0) by done. reflexivity.
Qed.

Lemma deliveryTrace_Forall (P : Event -> Prop) :
  (forall k, Forall P (attemptEvents w ep sa xml rid oid k)) ->
  (forall d, P (Sleep d)) ->
  forall n, Forall P (trace n).
Proof.
  intros Hatt Hsleep n. induction n as [|n IH]; [constructor|].
  destruct n as [|n]; [apply Hatt|].
  change (trace (S (S n)))
    with (trace (S n) ++ [Sleep (backoff (Z.of_nat (S n)))]
          ++ attemptEvents w ep sa xml rid oid (Z.of_nat (S n) + 1)).
  apply Forall_app. split; [done|].
  apply Forall_cons. split; [apply Hsleep | apply Hatt].
Qed.

Lemma deliveryTrace_facts (n : nat) :
  (1 <= n <= 3)%nat ->
  attemptsMade (trace n) = n
  /\ countEvents isOutgoingLog (trace n) = n
  /\ countEvents isResponseLog (trace n) = n
  /\ countEvents isSleep (trace n) = (n - 1)%nat
  /\ schedule (trace n) = scheduleOf n
  /\ 0 <= totalSleep (trace n) <= 3 * RetryDelay
  /\ last (trace n) = Some (responseLogged rid oid (Do w (Z.of_nat n))).
Proof.
  intros Hn.
  assert (n = 1 \/ n = 2 \/ n = 3)%nat as [-> | [-> | ->]] by lia;
    cbn [deliveryTrace]; unfold attemptEvents;
    change (Z.of_nat 1) with 1; change (Z.of_nat 2) with 2;
    change (Z.of_nat 3) with 3; change (1 + 1) with 2; change (2 + 1) with 3;
    destruct (Do w 1), (Do w 2), (Do w 3);
    (split; [reflexivity|]); (split; [reflexivity|]); (split; [reflexivity|]);
    (split; [reflexivity|]); (split; [reflexivity|]);
    (split; [split; vm_compute; discriminate | reflexivity]).
Qed.

Lemma deliveryTrace_ids (n : nat) : Forall (carriesIDs rid oid) (trace n).
Proof.
  apply deliveryTrace_Forall; [|done].
  intros k. unfold attemptEvents.
  repeat (apply Forall_cons; split); [done|done| |constructor].
  by destruct (Do w k).
Qed.

End Trace.

Lemma sendToERP_runs (w : World) (erpOrder : ERPOrder) (requestID : string) :
  (exists err : error,
      NewRequest_error w (erpEndpointOf w) = Some err
      /\ sendToERP w erpOrder requestID = Some (Some (Errorf_create_request err), []))
  \/ (NewRequest_error w (erpEndpointOf w) = None
      /\ exists (n : nat) (result : option error),
          (1 <= n <= 3)%nat
          /\ sendToERP w erpOrder requestID
             = Some (result,
                     deliveryTrace w (erpEndpointOf w) (soapActionOf w)
                                   (createSOAPEnvelope erpOrder) requestID
                                   (OrderID erpOrder) n)
          /\ (result = None <-> okResponse (Do w (Z.of_nat n)))).
Proof.
  rewrite sendToERP_unfold.
  destruct (NewRequest_error w (erpEndpointOf w)) as [err|] eqn:Hurl.
  - left. exists err. split; [done|].
    cbn [sendLoop]. unfold NewRequest. by rewrite Hurl.
  - right. split; [done|].
    destruct (sendLoop_trace w _ (soapActionOf w) (createSOAPEnvelope erpOrder)
                requestID (OrderID erpOrder) Hurl)
      as [(k & ((Hk1 & Hk3) & Hok & _) & ->) | (Hex & ->)].
    + unfold MaxRetries in Hk3. exists (Z.to_nat k), None.
      split; [lia|]. split; [done|]. rewrite Z2Nat.id by lia. done.
    + exists 3%nat, (Some (match Do w MaxRetries with
                          | DoError err => Errorf_send_request MaxRetries err
                          | DoResponse _ _ _ => Errorf_send_order MaxRetries
                          end)).
      split; [lia|]. split; [done|]. split; [done|].
      intros Hok. destruct (ok_not_failed _ Hok). by apply Hex.
Qed.

(** X10.  In every surrounding [sendToERP] returns, after at most
    [MaxRetries] round trips and at most 3 * RetryDelay (six seconds) of
    sleep in all; a [nil] result takes at least one round trip. *)
Theorem sendToERP_bounded (w : World) (erpOrder : ERPOrder) (requestID : string) :
  exists (result : option error) (tr : list Event),
    sendToERP w erpOrder requestID = Some (result, tr)
    /\ (attemptsMade tr <= Z.to_nat MaxRetries)%nat
    /\ 0 <= totalSleep tr <= 3 * RetryDelay
    /\ (result = None -> (1 <= attemptsMade tr)%nat).
Proof.
  destruct (sendToERP_runs w erpOrder requestID)
    as [(err & _ & ->) | (Hurl & n & result & Hn & -> & Hres)].
  - eexists _, _. split; [reflexivity|]. split; [cbn; lia|].
    split; [by vm_compute|]. discriminate.
  - destruct (deliveryTrace_facts w (erpEndpointOf w) (soapActionOf w)
                (createSOAPEnvelope erpOrder) requestID (OrderID erpOrder) n Hn)
      as (Hatt & _ & _ & _ & _ & Hsleep & _).
    eexists _, _. split; [reflexivity|]. rewrite Hatt.
    change (Z.to_nat MaxRetries) with 3%nat.
    split; [lia|]. split; [done|]. lia.
Qed.

(** X11.  In every run there are as many outgoing log entries and as many
    response log entries as round trips; a run with at least one round trip
    has exactly one sleep fewer than round trips, and a run without a round
    trip has no sleep; the pauses are those of the schedule whether an
    attempt failed in transport or by its status, every log entry carries
    the request id and the order id of the call, and the run never ends on
    a sleep. *)
Theorem sendToERP_audit_trail (w : World) (erpOrder : ERPOrder) (requestID : string) :
  exists (result : option error) (tr : list Event),
    sendToERP w erpOrder requestID = Some (result, tr)
    /\ countEvents isOutgoingLog tr = attemptsMade tr
    /\ countEvents isResponseLog tr = attemptsMade tr
    /\ ((attemptsMade tr = 0%nat /\ countEvents isSleep tr = 0%nat)
        \/ (countEvents isSleep tr + 1)%nat = attemptsMade tr)
    /\ schedule tr = scheduleOf (attemptsMade tr)
    /\ Forall (carriesIDs requestID (OrderID erpOrder)) tr
    /\ (tr = [] \/ exists r : DoResult,
                     last tr = Some (responseLogged requestID (OrderID erpOrder) r)).
Proof.
  destruct (sendToERP_runs w erpOrder requestID)
    as [(err & _ & ->) | (Hurl & n & result & Hn & -> & Hres)].
  - eexists _, _. split; [reflexivity|].
    split; [reflexivity|]. split; [reflexivity|].
    split; [by left|]. split; [reflexivity|]. split; [constructor|]. by left.
  - destruct (deliveryTrace_facts w (erpEndpointOf w) (soapActionOf w)
                (createSOAPEnvelope erpOrder) requestID (OrderID erpOrder) n Hn)
      as (Hatt & Hout & Hresp & Hsl & Hsched & _ & Hlast).
    eexists _, _. split; [reflexivity|]. rewrite Hatt, Hout, Hresp, Hsl, Hsched.
    do 2 (split; [reflexivity|]). split; [right; lia|]. split; [reflexivity|].
    split; [|right; eauto].
    apply deliveryTrace_ids.
Qed.

Example CanonicalMIMEHeaderKey_examples :
  CanonicalMIMEHeaderKey "SOAPAction" = "Soapaction"
  /\ CanonicalMIMEHeaderKey "Content-Type" = "Content-Type"
  /\ CanonicalMIMEHeaderKey "User-Agent" = "User-Agent"
  /\ CanonicalMIMEHeaderKey "x-shopify-topic" = "X-Shopify-Topic"
  /\ CanonicalMIMEHeaderKey "ACCEPT-encoding" = "Accept-Encoding"
  /\ CanonicalMIMEHeaderKey "not a token" = "not a token"
  /\ CanonicalMIMEHeaderKey "" = "".
Proof. repeat split. Qed.


(** X13.  When [http.NewRequest] rejects the endpoint, [sendToERP]
    returns at once with an error that wraps the cause: nothing is logged,
    sent or slept, and nothing is retried. *)
Theorem sendToERP_request_not_created
    (w : World) (erpOrder : ERPOrder) (requestID : string) (cause : error) :
  NewRequest_error w (erpEndpointOf w) = Some cause ->
  exists err : error,
    sendToERP w erpOrder requestID = Some (Some err, [])
    /\ Error err = "failed to create request: " +:+ Error cause
    /\ Unwrap err = Some cause.
Proof.
  intros Hurl.
  destruct (sendToERP_runs w erpOrder requestID)
    as [(err & Hurl' & ->) | (Hurl' & _)]; [|congruence].
  rewrite Hurl in Hurl'. injection Hurl' as <-.
  by eexists.
Qed.

Lemma sendToERP_request_not_created_witness :
  NewRequest_error worldBadURL (erpEndpointOf worldBadURL)
  = Some (ErrNew "missing ']' in host")
  /\ exists err : error,
       sendToERP worldBadURL sampleERPOrder "req-5" = Some (Some err, [])
       /\ Error err = "failed to create request: missing ']' in host"
       /\ Unwrap err = Some (ErrNew "missing ']' in host").
Proof.
  assert (Hurl : NewRequest_error worldBadURL (erpEndpointOf worldBadURL)
                 = Some (ErrNew "missing ']' in host")) by reflexivity.
  split; [exact Hurl|].
  exact (sendToERP_request_not_created worldBadURL sampleERPOrder "req-5" _ Hurl).
Defined.

Lemma unhex_hex (v : ascii) :
  ascii_of_N (16 * unhexDigit (hexDigit (N.shiftr (N_of_ascii v) 4))
              + unhexDigit (hexDigit (N.land (N_of_ascii v) 15))) = v.
Proof. by destruct v as [[] [] [] [] [] [] [] []]. Qed.

Lemma hexDigit_lower (v : ascii) :
  isLowerHex (hexDigit (N.shiftr (N_of_ascii v) 4)) = true
  /\ isLowerHex (hexDigit (N.land (N_of_ascii v) 15)) = true.
Proof. by destruct v as [[] [] [] [] [] [] [] []]. Qed.

Lemma hex_EncodeToString_inj (a : list ascii) : forall b,
  hex_EncodeToString a = hex_EncodeToString b -> a = b.
Proof.
  induction a as [|x a IH]; intros [|y b] H; try done.
  cbn [hex_EncodeToString] in H. injection H as H1 H2 H.
  f_equal; [|by apply IH].
  by rewrite <- (unhex_hex x), <- (unhex_hex y), H1, H2.
Qed.

Lemma hex_EncodeToString_length (a : list ascii) :
  String.length (hex_EncodeToString a) = (2 * length a)%nat.
Proof. induction a as [|x a IH]; [done|]. cbn [hex_EncodeToString String.length length]. rewrite IH. lia. Qed.

Lemma hex_EncodeToString_lower (a : list ascii) :
  allChars isLowerHex (hex_EncodeToString a) = true.
Proof.
  induction a as [|x a IH]; [done|]. cbn [hex_EncodeToString allChars].
  destruct (hexDigit_lower x) as [-> ->]. by rewrite IH.
Qed.

(** X14.  A request id is 16 characters long, all of them digits or
    letters a..f, and two ids are equal exactly when the eight random
    bytes they were built from are. *)
Theorem generateRequestID_format (random random' : nat -> ascii) :
  String.length (generateRequestID random) = 16%nat
  /\ allChars isLowerHex (generateRequestID random) = true
  /\ (generateRequestID random = generateRequestID random'
      <-> forall i : nat, (i < 8)%nat -> random i = random' i).
Proof.
  unfold generateRequestID, rand_Read.
  split; [|split].
  - rewrite hex_EncodeToString_length. reflexivity.
  - apply hex_EncodeToString_lower.
  - split.
    + intros H. apply hex_EncodeToString_inj in H. cbn in H.
      injection H as H0 H1 H2 H3 H4 H5 H6 H7.
      intros i Hi. do 8 (destruct i as [|i]; [done|]). lia.
    + intros H. cbn. by rewrite !H by lia.
Qed.




Lemma handleWebhook_not_post (env : Surroundings) (r : HttpRequest) :
  Req_Method r <> "POST" ->
  handleWebhook env r = Some (http_Error "Method not allowed" 405, []).
Proof.
  intros Hm. unfold handleWebhook.
  destruct (String.eqb_spec (Req_Method r) "POST"); [done|]. reflexivity.
Qed.

Lemma handleWebhook_unusable (env : Surroundings) (r : HttpRequest) :
  Req_Method r = "POST" ->
  unusablePayload env r ->
  handleWebhook env r
  = Some (http_Error match Req_Body r with
                     | inl _ => "Bad request"
                     | inr _ => "Invalid JSON"
                     end 400, []).
Proof.
  intros Hm Hbad. unfold handleWebhook, unusablePayload in *. rewrite Hm.
  cbn [String.eqb Ascii.eqb Bool.eqb negb].
  destruct (Req_Body r) as [err|body]; [done|].
  by destruct Hbad as [err ->].
Qed.

(** A request whose method is not exactly POST is answered with 405
    and causes no effect: nothing is logged and nothing is sent, whatever
    its body is. *)
Theorem handleWebhook_method_not_allowed (env : Surroundings) (r : HttpRequest) :
  Req_Method r <> "POST" ->
  handleWebhook env r
  = Some ({| Resp_Status := 405;
             Resp_ContentType := "text/plain; charset=utf-8";
             Resp_Body := TextBody ("Method not allowed" +:+ nl) |}, []).
Proof. intros Hm. rewrite handleWebhook_not_post by done. reflexivity. Qed.

Lemma handleWebhook_method_not_allowed_witness :
  Req_Method (mkHttpRequest "GET" ∅ (inr "{}")) <> "POST"
  /\ handleWebhook sampleSurroundings (mkHttpRequest "GET" ∅ (inr "{}"))
     = Some ({| Resp_Status := 405;
                Resp_ContentType := "text/plain; charset=utf-8";
                Resp_Body := TextBody ("Method not allowed" +:+ nl) |}, []).
Proof.
  assert (Hm : Req_Method (mkHttpRequest "GET" ∅ (inr "{}")) <> "POST") by discriminate.
  split; [exact Hm|].
  exact (handleWebhook_method_not_allowed sampleSurroundings _ Hm).
Defined.

(** A POST whose body cannot be read or does not decode is answered
    with 400 (Bad request, Invalid JSON) and causes no effect: it is
    neither written to the incoming-webhook log nor forwarded. *)
Theorem handleWebhook_bad_payload (env : Surroundings) (r : HttpRequest) :
  Req_Method r = "POST" ->
  unusablePayload env r ->
  exists msg : string,
    handleWebhook env r
    = Some ({| Resp_Status := 400;
               Resp_ContentType := "text/plain; charset=utf-8";
               Resp_Body := TextBody (msg +:+ nl) |}, [])
    /\ msg = match Req_Body r with
             | inl _ => "Bad request"
             | inr _ => "Invalid JSON"
             end.
Proof.
  intros Hm Hbad. rewrite handleWebhook_unusable by done.
  eexists. split; reflexivity.
Qed.

Lemma handleWebhook_bad_payload_witness :
  Req_Method (mkHttpRequest "POST" ∅ (inr "{")) = "POST"
  /\ unusablePayload sampleSurroundings (mkHttpRequest "POST" ∅ (inr "{"))
  /\ exists msg : string,
       handleWebhook sampleSurroundings (mkHttpRequest "POST" ∅ (inr "{"))
       = Some ({| Resp_Status := 400;
                  Resp_ContentType := "text/plain; charset=utf-8";
                  Resp_Body := TextBody (msg +:+ nl) |}, [])
       /\ msg = "Invalid JSON".
Proof.
  assert (Hm : Req_Method (mkHttpRequest "POST" ∅ (inr "{")) = "POST") by reflexivity.
  assert (Hbad : unusablePayload sampleSurroundings (mkHttpRequest "POST" ∅ (inr "{")))
    by (eexists; reflexivity).
  split; [exact Hm|]. split; [exact Hbad|].
  exact (handleWebhook_bad_payload sampleSurroundings _ Hm Hbad).
Defined.




